(** * trading-bot-webhook: the webhook relay of [app.py]

    A shallow embedding of the four functions of [app.py] that carry the
    logic of the service ([verify_webhook_signature],
    [parse_tradingview_alert], [place_order] and the [/webhook] handler),
    together with the parts of the Python runtime they call: [str]
    methods, [float], [json.loads], [hmac]/[hashlib.sha256].

    Conventions.
    - A Python [str] is a Rocq [string] holding the UTF-8 encoding of the
      text, so [str.encode()] is the identity and an ASCII-only [str] is a
      string whose bytes are all below 128.
    - A Python [float] is a binary64 value, Rocq's primitive [float];
      decimal texts and integers are rounded to the nearest value, ties
      to even.
    - A Python [int] is a [Z].
    - A request is given by the text of its body, as
      [request.get_data(as_text=True)] returns it, and by the value of
      its signature header, if it has one.
    - The exchange client, the clock, the shared secret and the Unicode
      tables of the interpreter are parameters, gathered in [Env].
    - A function that has effects returns the list of the events it
      emitted together with its value or the exception it raised.
    - Calls to [logger] only write to the process log and are left out.
    - Limits of the interpreter (recursion depth, the digit limit of
      [int]) are not modelled: [json.loads] and [jsonify] are taken on
      values within them, where [jsonify] does not fail.  Outside them
      the handler can answer 500 after an order was sent; the table of
      the statuses and the theorem on the relayed order say nothing
      that this would contradict. *)

From Stdlib Require Import ZArith List String Ascii Bool Lia Floats.
Import ListNotations.

#[local] Set Warnings "-inexact-float,-register-all".
#[local] Open Scope string_scope.

(** ** Python [str] methods *)

Module Str.

Definition code (c : ascii) : Z := Z.of_N (N_of_ascii c).

Definition chr (n : Z) : ascii := ascii_of_N (Z.to_N n).

Definition is_ascii_char (c : ascii) : bool := (code c <? 128)%Z.

(** [str.isascii()] *)
Fixpoint isascii (s : string) : bool :=
  match s with
  | EmptyString => true
  | String c r => is_ascii_char c && isascii r
  end.

Definition upper_char (c : ascii) : ascii :=
  if ((97 <=? code c) && (code c <=? 122))%Z then chr (code c - 32) else c.

Fixpoint map_chars (f : ascii -> ascii) (s : string) : string :=
  match s with
  | EmptyString => EmptyString
  | String c r => String (f c) (map_chars f r)
  end.

(** [str.upper()].  On ASCII text it maps [a-z] to [A-Z]; the case mapping
    of other text comes from the Unicode tables of the interpreter, taken
    here as the parameter [unicode_upper]. *)
Definition upper (unicode_upper : string -> string) (s : string) : string :=
  if isascii s then map_chars upper_char s else unicode_upper s.

(** [s.startswith(p)] *)
Definition startswith (s p : string) : bool := String.prefix p s.

(** [s.endswith(suffix)]: some tail of [s] is [suffix]. *)
Fixpoint endswith (s suffix : string) : bool :=
  (s =? suffix) ||
  match s with
  | EmptyString => false
  | String _ r => endswith r suffix
  end.

(** [s.replace(old, new)] scans [s] from the left; wherever [old] starts it
    writes [new] and jumps over [old], so occurrences are replaced without
    overlap and the text written is not scanned again.  [skip] counts the
    characters of a match still to jump over. *)
Fixpoint replace_scan (old new : string) (skip : nat) (s : string) : string :=
  match s with
  | EmptyString => EmptyString
  | String c r =>
      match skip with
      | S k => replace_scan old new k r
      | O =>
          if startswith s old
          then new ++ replace_scan old new (Nat.pred (String.length old)) r
          else String c (replace_scan old new O r)
      end
  end.

(** With an empty [old], Python writes [new] before every character and at
    the end. *)
Fixpoint replace_empty (new : string) (s : string) : string :=
  match s with
  | EmptyString => new
  | String c r => new ++ String c (replace_empty new r)
  end.

Definition replace (s old new : string) : string :=
  match old with
  | EmptyString => replace_empty new s
  | String _ _ => replace_scan old new O s
  end.

(** [s[n:]] *)
Fixpoint drop (n : nat) (s : string) : string :=
  match n, s with
  | S k, String _ r => drop k r
  | _, _ => s
  end.

(** [old in s] *)
Fixpoint contains (s old : string) : bool :=
  startswith s old ||
  match s with
  | EmptyString => false
  | String _ r => contains r old
  end.

End Str.

(** ** Python values, exceptions and effects *)

(** The values that reach the handler: what [json.loads] builds, plus the
    dictionaries the functions of [app.py] build themselves. *)
Inductive value : Type :=
| VNone : value
| VBool : bool -> value
| VInt : Z -> value
| VFloat : float -> value
| VStr : string -> value
| VList : list value -> value
| VDict : list (string * value) -> value.

Definition dict := list (string * value).

(** [d.get(k)] on a dictionary, as an option. *)
Fixpoint dict_lookup (d : dict) (k : string) : option value :=
  match d with
  | [] => None
  | (k', v) :: r => if (k' =? k) then Some v else dict_lookup r k
  end.

(** [d[k] = v]: an existing key keeps its place and takes the new value, a
    new key goes to the end. *)
Fixpoint dict_set (d : dict) (k : string) (v : value) : dict :=
  match d with
  | [] => [(k, v)]
  | (k', v') :: r =>
      if (k' =? k) then (k', v) :: r else (k', v') :: dict_set r k v
  end.

(** Truth value of an object, as [if x:] and [and] test it. *)
Definition truthy (v : value) : bool :=
  match v with
  | VNone => false
  | VBool b => b
  | VInt n => negb (n =? 0)%Z
  | VFloat f => negb (PrimFloat.eqb f 0%float)
  | VStr s => negb (s =? "")
  | VList l => match l with [] => false | _ => true end
  | VDict d => match d with [] => false | _ => true end
  end.

(** An exception object, of class [Exception] or one below it (those that
    [except Exception] catches): its class and [str(e)]. *)
Record exn : Type := Exn { exn_class : string; exn_str : string }.

Inductive outcome (A : Type) : Type :=
| Ok : A -> outcome A
| Raise : exn -> outcome A.
Arguments Ok {A} _.
Arguments Raise {A} _.

(** What a request does that can be seen from outside the function that
    does it: the calls between the functions of [app.py] and the calls to
    the exchange client. *)
Inductive event : Type :=
| EvVerify (request_data signature : string)
| EvParse (data : value)
| EvPlaceOrder (symbol side quantity : value) (order_type : string) (price : value)
| EvOrderMarket (symbol : string) (side quantity : value)
| EvOrderLimit (symbol : string) (side : value) (timeInForce : string)
    (quantity price : value).

(** A computation: the events it emits, in order, and how it ends. *)
Definition M (A : Type) : Type := (list event * outcome A)%type.

Definition ret {A} (a : A) : M A := ([], Ok a).

Definition raise {A} (e : exn) : M A := ([], Raise e).

Definition emit (ev : event) : M unit := ([ev], Ok tt).

Definition bind {A B} (m : M A) (f : A -> M B) : M B :=
  match m with
  | (t, Ok a) => let (t', r) := f a in ((t ++ t')%list, r)
  | (t, Raise e) => (t, Raise e)
  end.

(** [try: m  except Exception as e: handler e] *)
Definition try_except {A} (m : M A) (handler : exn -> M A) : M A :=
  match m with
  | (t, Ok a) => (t, Ok a)
  | (t, Raise e) => let (t', r) := handler e in ((t ++ t')%list, r)
  end.

Definition lift {A} (o : outcome A) : M A := ([], o).

Notation "x <- m ;; k" := (bind m (fun x => k))
  (at level 61, m at next level, right associativity).
Notation "m ;;; k" := (bind m (fun _ => k))
  (at level 61, right associativity).

Definition trace {A} (m : M A) : list event := fst m.
Definition result {A} (m : M A) : outcome A := snd m.

(** Attribute and item access on values. *)

(** [type(v).__name__] *)
Definition type_name (v : value) : string :=
  match v with
  | VNone => "NoneType"
  | VBool _ => "bool"
  | VInt _ => "int"
  | VFloat _ => "float"
  | VStr _ => "str"
  | VList _ => "list"
  | VDict _ => "dict"
  end.

Definition AttributeError (v : value) (attr : string) : exn :=
  Exn "AttributeError"
    ("'" ++ type_name v ++ "' object has no attribute '" ++ attr ++ "'").

(** [v.get(k, default)] *)
Definition py_get (v : value) (k : string) (default : value) : outcome value :=
  match v with
  | VDict d =>
      Ok match dict_lookup d k with Some x => x | None => default end
  | _ => Raise (AttributeError v "get")
  end.

(** [v[k]] for a string key. *)
Definition py_getitem (v : value) (k : string) : outcome value :=
  match v with
  | VDict d =>
      match dict_lookup d k with
      | Some x => Ok x
      | None => Raise (Exn "KeyError" ("'" ++ k ++ "'"))
      end
  | _ => Raise (Exn "TypeError" "object is not subscriptable")
  end.

(** ** Python [float] *)

Module Float.

Definition is_digit (c : ascii) : bool :=
  ((48 <=? Str.code c) && (Str.code c <=? 57))%Z.

(** Whitespace that [float] strips from ASCII text: space, and the
    characters 9 to 13. *)
Definition is_space (c : ascii) : bool :=
  ((Str.code c =? 32) || ((9 <=? Str.code c) && (Str.code c <=? 13)))%Z.

Fixpoint lstrip (s : string) : string :=
  match s with
  | String c r => if is_space c then lstrip r else s
  | EmptyString => EmptyString
  end.

Fixpoint rstrip (s : string) : string :=
  match s with
  | EmptyString => EmptyString
  | String c r =>
      match rstrip r with
      | EmptyString => if is_space c then EmptyString else String c EmptyString
      | r' => String c r'
      end
  end.

(** The longest prefix of digits, and what follows it. *)
Fixpoint take_digits (s : string) : string * string :=
  match s with
  | String c r =>
      if is_digit c
      then let (d, r') := take_digits r in (String c d, r')
      else (EmptyString, s)
  | EmptyString => (EmptyString, EmptyString)
  end.

Fixpoint digits_value (acc : Z) (s : string) : Z :=
  match s with
  | EmptyString => acc
  | String c r => digits_value (10 * acc + (Str.code c - 48)) r
  end.

(** The binary64 value nearest to the integer [n], ties to even;
    [infinity] beyond the range. *)
Definition of_Z (n : Z) : float :=
  SF2Prim (binary_normalize prec emax n 0 false).

(** The binary64 value nearest to [(-1)^neg * m * 10^e], for [0 <= m]. *)
Definition of_decimal (neg : bool) (m e : Z) : float :=
  match m with
  | Zpos p =>
      if (0 <=? e)%Z
      then of_Z ((if neg then -1 else 1) * (m * 10 ^ e))
      else SF2Prim (SFdiv prec emax (S754_finite neg p 0)
                      (S754_finite false (Z.to_pos (10 ^ (- e))) 0))
  | _ => if neg then (-0)%float else 0%float
  end.

(** An optional sign. *)
Definition take_sign (s : string) : bool * string :=
  match s with
  | String "-" r => (true, r)
  | String "+" r => (false, r)
  | _ => (false, s)
  end.

(** [digits [. [digits]] [(e|E) [sign] digits]] or [. digits ...], the
    whole of [s]: its mantissa and decimal exponent. *)
Definition parse_decimal (s : string) : option (Z * Z) :=
  let (ip, r1) := take_digits s in
  let (fp, r2) :=
    match r1 with
    | String "." r => take_digits r
    | _ => (EmptyString, r1)
    end in
  let m := digits_value 0 (ip ++ fp) in
  let fl := Z.of_nat (String.length fp) in
  if (ip =? "") && (fp =? "") then None
  else
    match r2 with
    | EmptyString => Some (m, - fl)%Z
    | String c r3 =>
        if (Ascii.eqb c "e" || Ascii.eqb c "E")%char then
          let (eneg, r4) := take_sign r3 in
          let (ep, r5) := take_digits r4 in
          if (ep =? "") || negb (r5 =? "") then None
          else
            let x := digits_value 0 ep in
            Some (m, (if eneg then - x else x) - fl)%Z
        else None
    end.

Definition lower_char (c : ascii) : ascii :=
  if ((65 <=? Str.code c) && (Str.code c <=? 90))%Z
  then Str.chr (Str.code c + 32) else c.

(** Underscores may only stand between two digits; they are dropped. *)
Fixpoint drop_underscores (prev : ascii) (s : string) : option string :=
  match s with
  | EmptyString =>
      if Ascii.eqb prev "_" then None else Some EmptyString
  | String c r =>
      if Ascii.eqb c "_" then
        if is_digit prev then drop_underscores c r else None
      else if Ascii.eqb prev "_" && negb (is_digit c) then None
      else option_map (String c) (drop_underscores c r)
  end.

(** [float(s)] for ASCII text; [None] stands for [ValueError]. *)
Definition of_ascii_str (s : string) : option float :=
  match drop_underscores "000" (rstrip (lstrip s)) with
  | None => None
  | Some t =>
      let (neg, u) := take_sign t in
      let l := Str.map_chars lower_char u in
      if (l =? "inf") || (l =? "infinity")
      then Some (if neg then neg_infinity else infinity)
      else if (l =? "nan") then Some nan
      else
        match parse_decimal u with
        | Some (m, e) => Some (of_decimal neg m e)
        | None => None
        end
  end.

(** [float(s)]; text that is not ASCII may hold the digits and spaces of
    other scripts, which the interpreter maps with its Unicode tables:
    the parameter [unicode_float]. *)
Definition of_str (unicode_float : string -> option float) (s : string)
  : option float :=
  if Str.isascii s then of_ascii_str s else unicode_float s.

Definition is_finite (f : float) : bool :=
  negb (PrimFloat.is_infinity f) && negb (PrimFloat.is_nan f).

End Float.

(** [float(v)].  The text of the [ValueError] names the string in the
    interpreter; it only ever reaches the log and is cut short here. *)
Definition py_float (unicode_float : string -> option float) (v : value)
  : outcome float :=
  match v with
  | VFloat f => Ok f
  | VBool b => Ok (if b then 1%float else 0%float)
  | VInt n =>
      if Float.is_finite (Float.of_Z n) then Ok (Float.of_Z n)
      else Raise (Exn "OverflowError" "int too large to convert to float")
  | VStr s =>
      match Float.of_str unicode_float s with
      | Some f => Ok f
      | None => Raise (Exn "ValueError" "could not convert string to float")
      end
  | _ => Raise (Exn "TypeError"
                  ("float() argument must be a string or a real number, not '"
                   ++ type_name v ++ "'"))
  end.

(** ** [json.loads] *)

Module Json.

#[local] Open Scope char_scope.

Definition is_ws (c : ascii) : bool :=
  Ascii.eqb c " " || Ascii.eqb c "009" || Ascii.eqb c "010" || Ascii.eqb c "013".

Fixpoint skip_ws (s : string) : string :=
  match s with
  | String c r => if is_ws c then skip_ws r else s
  | EmptyString => EmptyString
  end.

Definition hex_value (c : ascii) : option Z :=
  let n := Str.code c in
  if ((48 <=? n) && (n <=? 57))%Z then Some (n - 48)%Z
  else if ((97 <=? n) && (n <=? 102))%Z then Some (n - 87)%Z
  else if ((65 <=? n) && (n <=? 70))%Z then Some (n - 55)%Z
  else None.

(** The number written by four hexadecimal digits. *)
Definition hex4 (a b c d : ascii) : option Z :=
  match hex_value a, hex_value b, hex_value c, hex_value d with
  | Some x, Some y, Some z, Some w => Some (4096 * x + 256 * y + 16 * z + w)%Z
  | _, _, _, _ => None
  end.

(** The UTF-8 bytes of a code point (a lone surrogate takes the
    three-byte form). *)
Definition utf8 (cp : Z) : string :=
  let b (n : Z) := Str.chr n in
  let tail (k : Z) := b (128 + Z.land (Z.shiftr cp k) 63)%Z in
  (if cp <? 128 then String (b cp) EmptyString
   else if cp <? 2048 then
     String (b (192 + Z.shiftr cp 6)) (String (tail 0) EmptyString)
   else if cp <? 65536 then
     String (b (224 + Z.shiftr cp 12))
       (String (tail 6) (String (tail 0) EmptyString))
   else
     String (b (240 + Z.shiftr cp 18))
       (String (tail 12) (String (tail 6) (String (tail 0) EmptyString))))%Z.

Definition is_high_surrogate (u : Z) : bool := ((55296 <=? u) && (u <=? 56319))%Z.
Definition is_low_surrogate (u : Z) : bool := ((56320 <=? u) && (u <=? 57343))%Z.

Definition join_surrogates (hi lo : Z) : Z :=
  (65536 + 1024 * (hi - 55296) + (lo - 56320))%Z.

(** The character a one-letter escape stands for. *)
Definition simple_escape (e : ascii) : option ascii :=
  if Ascii.eqb e "034" then Some "034"
  else if Ascii.eqb e "\" then Some "\"
  else if Ascii.eqb e "/" then Some "/"
  else if Ascii.eqb e "b" then Some "008"
  else if Ascii.eqb e "f" then Some "012"
  else if Ascii.eqb e "n" then Some "010"
  else if Ascii.eqb e "r" then Some "013"
  else if Ascii.eqb e "t" then Some "009"
  else None.

(** A low surrogate written as an escape at the head of [s]: its value
    and what follows it. *)
Definition low_surrogate_escape (s : string) : option Z :=
  match s with
  | String bs (String u (String a (String b (String c (String d _))))) =>
      if Ascii.eqb bs "\" && Ascii.eqb u "u" then
        match hex4 a b c d with
        | Some lo => if is_low_surrogate lo then Some lo else None
        | None => None
        end
      else None
  | _ => None
  end.

(** The body of a string literal, from just after its opening quote: the
    text it denotes and what follows its closing quote.  Control
    characters must be escaped. *)
Fixpoint scanstring (s : string) : option (string * string) :=
  match s with
  | EmptyString => None
  | String c r =>
      if Ascii.eqb c "034" then Some (EmptyString, r)
      else if Ascii.eqb c "\" then
        match r with
        | EmptyString => None
        | String e r1 =>
            if Ascii.eqb e "u" then
              match r1 with
              | String h1 (String h2 (String h3 (String h4 r2))) =>
                  match hex4 h1 h2 h3 h4 with
                  | None => None
                  | Some u =>
                      match (if is_high_surrogate u
                             then low_surrogate_escape r2 else None), r2 with
                      | Some lo,
                        String _ (String _ (String _ (String _
                          (String _ (String _ r3))))) =>
                          option_map
                            (fun p => (utf8 (join_surrogates u lo) ++ fst p,
                                       snd p)%string)
                            (scanstring r3)
                      | _, _ =>
                          option_map
                            (fun p => (utf8 u ++ fst p, snd p)%string)
                            (scanstring r2)
                      end
                  end
              | _ => None
              end
            else
              match simple_escape e with
              | Some x =>
                  option_map (fun p => (String x (fst p), snd p))
                    (scanstring r1)
              | None => None
              end
        end
      else if (Str.code c <? 32)%Z then None
      else option_map (fun p => (String c (fst p), snd p)) (scanstring r)
  end.

(** The text of a number at the head of [s], whether it is written as a
    float, and what follows: an optional minus, then either a lone zero
    or digits that do not start with zero, then optionally a point with
    digits after it, then optionally an exponent mark with an optional
    sign and digits.  A point or an exponent mark without digits is left
    unread. *)
Definition match_number (s : string) : option (string * bool * string) :=
  let (sign, r0) :=
    match s with
    | String "-" r => ("-"%string, r)
    | _ => (EmptyString, s)
    end in
  let int_part :=
    match r0 with
    | String c r =>
        if Ascii.eqb c "0" then Some ("0"%string, r)
        else if Float.is_digit c then
          let (d, r') := Float.take_digits r in Some (String c d, r')
        else None
    | EmptyString => None
    end in
  match int_part with
  | None => None
  | Some (ip, r1) =>
      let '(fp, r2) :=
        match r1 with
        | String "." r =>
            match Float.take_digits r with
            | (EmptyString, _) => (EmptyString, r1)
            | (d, r') => (String "." d, r')
            end
        | _ => (EmptyString, r1)
        end in
      let '(ep, r3) :=
        match r2 with
        | String e r =>
            if Ascii.eqb e "e" || Ascii.eqb e "E" then
              let '(sg, r') :=
                match r with
                | String "-" t => ("-"%string, t)
                | String "+" t => ("+"%string, t)
                | _ => (EmptyString, r)
                end in
              match Float.take_digits r' with
              | (EmptyString, _) => (EmptyString, r2)
              | (d, r'') => (String e (sg ++ d), r'')
              end
            else (EmptyString, r2)
        | EmptyString => (EmptyString, r2)
        end in
      Some ((sign ++ ip ++ fp ++ ep)%string,
            negb (fp =? "")%string || negb (ep =? "")%string, r3)
  end.

(** [int(text)] for the text of an integer matched by [match_number]. *)
Definition int_of_text (t : string) : Z :=
  match t with
  | String "-" r => (- Float.digits_value 0 r)%Z
  | _ => Float.digits_value 0 t
  end.

(** One JSON term at the head of [s] and what follows it.  The items of
    an array and the members of an object are read by the two loops
    below.  [fuel] bounds the depth of the calls; each call reads a
    character, so twice the length of the text is enough (lemma
    [decode_fuel]). *)
Fixpoint scan_once (fuel : nat) (s : string) : option (value * string) :=
  match fuel with
  | O => None
  | S f =>
      match s with
      | EmptyString => None
      | String c r =>
          if Ascii.eqb c "034" then
            option_map (fun p => (VStr (fst p), snd p)) (scanstring r)
          else if Ascii.eqb c "{" then
            match skip_ws r with
            | String "}" r' => Some (VDict [], r')
            | r' => parse_members f r' []
            end
          else if Ascii.eqb c "[" then
            match skip_ws r with
            | String "]" r' => Some (VList [], r')
            | r' => parse_items f r' []
            end
          else if Str.startswith s "null" then
            Some (VNone, Str.drop 4 s)
          else if Str.startswith s "true" then
            Some (VBool true, Str.drop 4 s)
          else if Str.startswith s "false" then
            Some (VBool false, Str.drop 5 s)
          else if Str.startswith s "NaN" then
            Some (VFloat nan, Str.drop 3 s)
          else if Str.startswith s "Infinity" then
            Some (VFloat infinity, Str.drop 8 s)
          else if Str.startswith s "-Infinity" then
            Some (VFloat neg_infinity, Str.drop 9 s)
          else
            match match_number s with
            | Some (t, true, r') =>
                option_map (fun x => (VFloat x, r')) (Float.of_ascii_str t)
            | Some (t, false, r') => Some (VInt (int_of_text t), r')
            | None => None
            end
      end
  end

with parse_items (fuel : nat) (s : string) (acc : list value)
  : option (value * string) :=
  match fuel with
  | O => None
  | S f =>
      match scan_once f s with
      | None => None
      | Some (v, r) =>
          match skip_ws r with
          | String "]" r' => Some (VList (rev (v :: acc)), r')
          | String "," r' => parse_items f (skip_ws r') (v :: acc)
          | _ => None
          end
      end
  end

with parse_members (fuel : nat) (s : string) (acc : dict)
  : option (value * string) :=
  match fuel with
  | O => None
  | S f =>
      match s with
      | String "034" r =>
          match scanstring r with
          | None => None
          | Some (key, r1) =>
              match skip_ws r1 with
              | String ":" r2 =>
                  match scan_once f (skip_ws r2) with
                  | None => None
                  | Some (v, r3) =>
                      let acc' := dict_set acc key v in
                      match skip_ws r3 with
                      | String "}" r' => Some (VDict acc', r')
                      | String "," r' => parse_members f (skip_ws r') acc'
                      | _ => None
                      end
                  end
              | _ => None
              end
          end
      | _ => None
      end
  end.

(** [json.loads(s)] as an option: one term, with whitespace around it and
    nothing else. *)
Definition decode (s : string) : option value :=
  match scan_once (2 * String.length s + 2) (skip_ws s) with
  | Some (v, r) =>
      match skip_ws r with
      | EmptyString => Some v
      | String _ _ => None
      end
  | None => None
  end.

End Json.

(** [json.loads(s)]; a text that is not JSON raises [JSONDecodeError].
    The text of that error says where and why in the interpreter; it only
    ever reaches the log and is cut short here. *)
Definition json_loads (s : string) : outcome value :=
  match Json.decode s with
  | Some v => Ok v
  | None => Raise (Exn "JSONDecodeError" "Expecting value")
  end.

(** ** [hashlib.sha256] and [hmac] *)

Module Sha256.

#[local] Open Scope Z_scope.

(** A word is a [Z] in the range of 32 bits; sums wrap around. *)
Definition wrap (x : Z) : Z := x mod 2 ^ 32.

Definition add (x y : Z) : Z := wrap (x + y).

Definition rotr (n x : Z) : Z :=
  Z.lor (Z.shiftr x n) (wrap (Z.shiftl x (32 - n))).

Definition Ch (x y z : Z) : Z :=
  Z.lxor (Z.land x y) (Z.land (Z.lxor x 0xffffffff) z).

Definition Maj (x y z : Z) : Z :=
  Z.lxor (Z.lxor (Z.land x y) (Z.land x z)) (Z.land y z).

Definition Sigma0 (x : Z) : Z :=
  Z.lxor (Z.lxor (rotr 2 x) (rotr 13 x)) (rotr 22 x).

Definition Sigma1 (x : Z) : Z :=
  Z.lxor (Z.lxor (rotr 6 x) (rotr 11 x)) (rotr 25 x).

Definition sigma0 (x : Z) : Z :=
  Z.lxor (Z.lxor (rotr 7 x) (rotr 18 x)) (Z.shiftr x 3).

Definition sigma1 (x : Z) : Z :=
  Z.lxor (Z.lxor (rotr 17 x) (rotr 19 x)) (Z.shiftr x 10).

(** The first primes, by trial division. *)
Definition is_prime (n : nat) : bool :=
  forallb (fun d => negb (Nat.eqb (Nat.modulo n d) 0)) (seq 2 (n - 2)).

Definition primes (n : nat) : list Z :=
  map Z.of_nat (firstn n (filter is_prime (seq 2 310))).

(** The integer part of the cube root, one bit after the other. *)
Definition cube_root (n : Z) : Z :=
  fold_left (fun r i => let r' := r + 2 ^ Z.of_nat i in
                        if r' * r' * r' <=? n then r' else r)
    (rev (seq 0 40)) 0.

(** The round constants: the first 32 bits of the fractional parts of
    the cube roots of the first 64 primes. *)
Definition K : list Z :=
  Eval vm_compute in map (fun p => wrap (cube_root (p * 2 ^ 96))) (primes 64).

(** The eight words of the hash state. *)
Record state : Type :=
  State { sa : Z; sb : Z; sc : Z; sd : Z; se : Z; sf : Z; sg : Z; sh : Z }.

Definition of_words (l : list Z) : state :=
  State (nth 0 l 0) (nth 1 l 0) (nth 2 l 0) (nth 3 l 0)
        (nth 4 l 0) (nth 5 l 0) (nth 6 l 0) (nth 7 l 0).

(** The initial state: the first 32 bits of the fractional parts of the
    square roots of the first 8 primes. *)
Definition H0 : state :=
  Eval vm_compute in of_words (map (fun p => wrap (Z.sqrt (p * 2 ^ 64))) (primes 8)).

(** The message with its padding: a byte 128, zeros up to 56 modulo 64,
    and the bit length on eight bytes, most significant first. *)
Definition be_bytes (n : nat) (x : Z) : list Z :=
  map (fun i => Z.land (Z.shiftr x (8 * Z.of_nat i)) 255) (rev (seq 0 n)).

Definition pad (msg : list Z) : list Z :=
  let len := Z.of_nat (List.length msg) in
  let zeros := Z.to_nat ((55 - len) mod 64) in
  (msg ++ 128 :: repeat 0 zeros ++ be_bytes 8 (8 * len))%list.

Fixpoint blocks (n : nat) (l : list Z) : list (list Z) :=
  match n with
  | O => []
  | S k => firstn 64 l :: blocks k (skipn 64 l)
  end.

(** The words of a block, four bytes each, most significant first. *)
Fixpoint words (n : nat) (l : list Z) : list Z :=
  match n with
  | O => []
  | S k =>
      fold_left (fun acc b => 256 * acc + b) (firstn 4 l) 0
      :: words k (skipn 4 l)
  end.

(** The message schedule, latest word first: [w] holds the words made so
    far and [n] more are made. *)
Fixpoint schedule (n : nat) (w : list Z) : list Z :=
  match n with
  | O => w
  | S k =>
      let x := add (add (sigma1 (nth 1 w 0)) (nth 6 w 0))
                   (add (sigma0 (nth 14 w 0)) (nth 15 w 0)) in
      schedule k (x :: w)
  end.

Definition round (s : state) (kw : Z * Z) : state :=
  let t1 := add (add (add (sh s) (Sigma1 (se s))) (Ch (se s) (sf s) (sg s)))
                (add (fst kw) (snd kw)) in
  let t2 := add (Sigma0 (sa s)) (Maj (sa s) (sb s) (sc s)) in
  State (add t1 t2) (sa s) (sb s) (sc s) (add (sd s) t1) (se s) (sf s) (sg s).

Definition compress (s : state) (block : list Z) : state :=
  let w := rev (schedule 48 (rev (words 16 block))) in
  let r := fold_left round (combine K w) s in
  State (add (sa s) (sa r)) (add (sb s) (sb r)) (add (sc s) (sc r))
        (add (sd s) (sd r)) (add (se s) (se r)) (add (sf s) (sf r))
        (add (sg s) (sg r)) (add (sh s) (sh r)).

Definition hash (msg : list Z) : state :=
  let p := pad msg in
  fold_left compress (blocks (Nat.div (List.length p) 64) p) H0.

Definition state_words (s : state) : list Z :=
  [sa s; sb s; sc s; sd s; se s; sf s; sg s; sh s].

(** [sha256(msg).digest()] *)
Definition digest (msg : list Z) : list Z :=
  flat_map (be_bytes 4) (state_words (hash msg)).

Definition hex_digit (n : Z) : ascii :=
  nth (Z.to_nat n) (list_ascii_of_string "0123456789abcdef") "0"%char.

Definition hex_word (x : Z) : string :=
  string_of_list_ascii
    (map (fun i => hex_digit (Z.land (Z.shiftr x (4 * Z.of_nat i)) 15))
       (rev (seq 0 8))).

Definition hex_state (s : state) : string :=
  hex_word (sa s) ++ hex_word (sb s) ++ hex_word (sc s) ++ hex_word (sd s) ++
  hex_word (se s) ++ hex_word (sf s) ++ hex_word (sg s) ++ hex_word (sh s).

(** [sha256(msg).hexdigest()] *)
Definition hexdigest (msg : list Z) : string := hex_state (hash msg).

(** [hmac.new(key, msg, hashlib.sha256)]: keys longer than a block are
    hashed first, shorter ones are filled with zeros. *)
Definition hmac_key (key : list Z) : list Z :=
  let k := if (64 <? Z.of_nat (List.length key)) then digest key else key in
  (k ++ repeat 0 (64 - List.length k)%nat)%list.

Definition hmac_state (key msg : list Z) : state :=
  let k := hmac_key key in
  let inner := digest (map (Z.lxor 0x36) k ++ msg)%list in
  hash (map (Z.lxor 0x5c) k ++ inner)%list.

(** [hmac.new(key, msg, hashlib.sha256).hexdigest()] *)
Definition hmac_hexdigest (key msg : list Z) : string :=
  hex_state (hmac_state key msg).

End Sha256.

(** The bytes of a [str], [s.encode()]. *)
Definition encode (s : string) : list Z :=
  map Str.code (list_ascii_of_string s).

(** ** The service *)

(** [hmac.compare_digest(a, b)] on two [str]: both must be ASCII. *)
Definition compare_digest (a b : string) : outcome bool :=
  if Str.isascii a && Str.isascii b then Ok (a =? b)
  else Raise (Exn "TypeError"
                "comparing strings with non-ASCII characters is not supported").

(** [v.replace(old, new)] *)
Definition py_replace (v : value) (old new : string) : outcome string :=
  match v with
  | VStr s => Ok (Str.replace s old new)
  | _ => Raise (AttributeError v "replace")
  end.

(** Payload texts are written with an apostrophe where the text has a
    double quote. *)
Definition dq (s : string) : string :=
  Str.map_chars (fun c => if Ascii.eqb c "'" then "034"%char else c) s.

(** The exchange client, [binance.client.Client]: each call returns the
    decoded answer of the exchange or raises. *)
Record Client : Type := {
  order_market : string -> value -> value -> outcome value;
  order_limit : string -> value -> string -> value -> value -> outcome value
}.

(** What the process is started with and what it reads from outside:
    the configuration, the exchange client, the clock, and the Unicode
    tables of the interpreter. *)
Record Env : Type := {
  WEBHOOK_SECRET : string;
  client : Client;
  datetime_now_isoformat : string;
  unicode_upper : string -> string;
  unicode_float : string -> option float
}.

(** A [POST /webhook] request: [request.get_data(as_text=True)] and the
    header [X-Tradingview-Signature], if it is there. *)
Record Request : Type := {
  get_data : string;
  x_tradingview_signature : option string
}.

(** [jsonify(body), status_code] *)
Record Response : Type := {
  json : value;
  status_code : Z
}.

Section App.

Variable env : Env.

(** The signature that [verify_webhook_signature] accepts for a body. *)
Definition computed_signature (request_data : string) : string :=
  Sha256.hmac_hexdigest (encode (WEBHOOK_SECRET env)) (encode request_data).

Definition verify_webhook_signature (request_data signature : string)
  : M bool :=
  emit (EvVerify request_data signature) ;;;
  lift (compare_digest (computed_signature request_data) signature).

Definition alert_dict (symbol : string) (signal side : value)
  (quantity : float) (price : value) : value :=
  VDict [("symbol", VStr symbol);
         ("signal", signal);
         ("side", side);
         ("quantity", VFloat quantity);
         ("price", price);
         ("timestamp", VStr (datetime_now_isoformat env))].

Definition parse_tradingview_alert (data : value) : M value :=
  emit (EvParse data) ;;;
  try_except
    (alert_data <- lift match data with
                        | VStr s => json_loads s
                        | _ => Ok data
                        end ;;
     symbol0 <- lift (py_get alert_data "symbol" (VStr "")) ;;
     symbol <- lift (py_replace symbol0 "BINANCE:" "") ;;
     signal <- lift (py_get alert_data "signal" (VStr "BUY")) ;;
     side <- lift (py_get alert_data "side" (VStr "BUY")) ;;
     quantity0 <- lift (py_get alert_data "quantity" (VFloat 0.001)) ;;
     quantity <- lift (py_float (unicode_float env) quantity0) ;;
     price <- lift (py_get alert_data "price" VNone) ;;
     ret (alert_dict symbol signal side quantity price))
    (fun e => ret VNone).

(** Lines 55 and 56 of [place_order]. *)
Definition normalize_symbol (symbol : string) : string :=
  if negb (Str.endswith symbol "USDT")
  then Str.upper (unicode_upper env) symbol ++ "USDT"
  else symbol.

Definition client_order_market (symbol : string) (side quantity : value)
  : M value :=
  emit (EvOrderMarket symbol side quantity) ;;;
  lift (order_market (client env) symbol side quantity).

Definition client_order_limit (symbol : string) (side : value)
  (timeInForce : string) (quantity price : value) : M value :=
  emit (EvOrderLimit symbol side timeInForce quantity price) ;;;
  lift (order_limit (client env) symbol side timeInForce quantity price).

Definition order_failure (e : exn) : value :=
  VDict [("success", VBool false); ("error", VStr (exn_str e))].

Definition place_order (symbol side quantity : value) (order_type : string)
  (price : value) : M value :=
  emit (EvPlaceOrder symbol side quantity order_type price) ;;;
  try_except
    (symbol <- match symbol with
               | VStr s => ret (normalize_symbol s)
               | _ => raise (AttributeError symbol "endswith")
               end ;;
     order <- (if order_type =? "MARKET" then
                 client_order_market symbol side quantity
               else if (order_type =? "LIMIT") && truthy price then
                 client_order_limit symbol side "GTC" quantity price
               else
                 raise (Exn "ValueError"
                          ("Invalid order type: " ++ order_type))) ;;
     order_id <- lift (py_get order "orderId" VNone) ;;
     status <- lift (py_get order "status" VNone) ;;
     ret (VDict [("success", VBool true);
                 ("order_id", order_id);
                 ("symbol", VStr symbol);
                 ("side", side);
                 ("quantity", quantity);
                 ("status", status)]))
    (fun e => ret (order_failure e)).

(** The handler calls [place_order] without [order_type], which then
    takes its default. *)
Definition default_order_type : string := "MARKET".

Definition webhook (request : Request) : M Response :=
  try_except
    (let raw_data := get_data request in
     let signature :=
       match x_tradingview_signature request with
       | Some s => s
       | None => ""
       end in
     invalid <- (if truthy (VStr signature)
                 then ok <- verify_webhook_signature raw_data signature ;;
                      ret (negb ok)
                 else ret false) ;;
     if invalid : bool then
       ret {| json := VDict [("error", VStr "Invalid signature")];
              status_code := 401 |}
     else
       alert_data <- parse_tradingview_alert (VStr raw_data) ;;
       if negb (truthy alert_data) then
         ret {| json := VDict [("error", VStr "Invalid alert data")];
                status_code := 400 |}
       else
         symbol <- lift (py_getitem alert_data "symbol") ;;
         side <- lift (py_getitem alert_data "side") ;;
         quantity <- lift (py_getitem alert_data "quantity") ;;
         price <- lift (py_get alert_data "price" VNone) ;;
         order_result <- place_order symbol side quantity
                           default_order_type price ;;
         success <- lift (py_getitem order_result "success") ;;
         if truthy success then
           ret {| json := VDict [("status", VStr "success");
                                 ("message", VStr "Order placed successfully");
                                 ("order", order_result)];
                  status_code := 200 |}
         else
           error <- lift (py_get order_result "error" VNone) ;;
           ret {| json := VDict [("status", VStr "error");
                                 ("message", VStr "Failed to place order");
                                 ("error", error)];
                  status_code := 400 |})
    (fun e =>
       ret {| json := VDict [("error", VStr (exn_str e))];
              status_code := 500 |}).

End App.

(** ** The configuration and the other two endpoints *)

(** [s.lower()].  On ASCII text it maps [A-Z] to [a-z]; the case mapping
    of other text is the parameter [unicode_lower]. *)
Definition str_lower (unicode_lower : string -> string) (s : string) : string :=
  if Str.isascii s then Str.map_chars Float.lower_char s else unicode_lower s.

(** [os.getenv(name, default)], over the environment of the process. *)
Definition getenv (environ : string -> option string) (name default : string)
  : string :=
  match environ name with
  | Some v => v
  | None => default
  end.

(** Line 18. *)
Definition configured_secret (environ : string -> option string) : string :=
  getenv environ "WEBHOOK_SECRET" "your-webhook-secret".

(** Line 21. *)
Definition TESTNET_MODE (unicode_lower : string -> string)
  (environ : string -> option string) : bool :=
  str_lower unicode_lower (getenv environ "TESTNET_MODE" "True") =? "true".

(** The arguments the exchange client is made with; [testnet] is false
    where the call does not give it. *)
Record ClientArgs : Type := {
  api_key : option string;
  api_secret : option string;
  testnet : bool
}.

(** Lines 24 to 27. *)
Definition client_args (unicode_lower : string -> string)
  (environ : string -> option string) : ClientArgs :=
  if TESTNET_MODE unicode_lower environ then
    {| api_key := environ "BINANCE_API_KEY";
       api_secret := environ "BINANCE_API_SECRET";
       testnet := true |}
  else
    {| api_key := environ "BINANCE_API_KEY";
       api_secret := environ "BINANCE_API_SECRET";
       testnet := false |}.

(** The environment of the handler, as the module sets it up from the
    environment of the process. *)
Definition configured (environ : string -> option string) (c : Client)
  (now : string) (unicode_upper : string -> string)
  (unicode_float : string -> option float) : Env :=
  {| WEBHOOK_SECRET := configured_secret environ;
     client := c;
     datetime_now_isoformat := now;
     unicode_upper := unicode_upper;
     unicode_float := unicode_float |}.

Definition health_check (testnet_mode : bool) : Response :=
  {| json := VDict [("status", VStr "healthy");
                    ("mode", VStr (if testnet_mode then "testnet" else "live"))];
     status_code := 200 |}.

Definition index (testnet_mode : bool) : Response :=
  {| json := VDict [("app", VStr "Trading Bot Webhook");
                    ("status", VStr "running");
                    ("testnet", VBool testnet_mode);
                    ("webhook_url", VStr "/webhook");
                    ("health_check", VStr "/health")];
     status_code := 200 |}.

(** Every character of a text has the property. *)
Fixpoint all_chars (p : ascii -> bool) (s : string) : bool :=
  match s with
  | EmptyString => true
  | String c r => p c && all_chars p r
  end.

(** A digit, or a letter from [a] to [f]. *)
Definition is_lower_hex (c : ascii) : bool :=
  Float.is_digit c || ((97 <=? Str.code c) && (Str.code c <=? 102))%Z.

(** One of the two letters, small or capital. *)
Definition is_letter (small capital c : ascii) : bool :=
  Ascii.eqb c small || Ascii.eqb c capital.

(** One of the sixteen ways to write [true] in small and capital
    letters. *)
Definition spells_true (s : string) : bool :=
  match s with
  | String a (String b (String c (String d EmptyString))) =>
      is_letter "t" "T" a && is_letter "r" "R" b
      && is_letter "u" "U" c && is_letter "e" "E" d
  | _ => false
  end.

(** The text that starts with the marker [BINANCE:] before each of the
    parts, and the text made of the parts alone. *)
Fixpoint with_marker (parts : list string) : string :=
  match parts with
  | [] => EmptyString
  | p :: r => "BINANCE:" ++ p ++ with_marker r
  end.

Fixpoint without_marker (parts : list string) : string :=
  match parts with
  | [] => EmptyString
  | p :: r => p ++ without_marker r
  end.

(** ** Views of the functions

    What each function computes, written as plain functions of its
    input; the lemmas below show that the functions of the service agree
    with them. *)

(** Line 40: a text is decoded, anything else is taken as it is. *)
Definition decoded (data : value) : outcome value :=
  match data with
  | VStr s => json_loads s
  | _ => Ok data
  end.

(** [d.get(k, default)] *)
Definition field (d : dict) (k : string) (default : value) : value :=
  match dict_lookup d k with
  | Some v => v
  | None => default
  end.

(** What [parse_tradingview_alert] reads from its argument: the fields of
    the alert, or nothing where the function returns [None]. *)
Definition alert_fields (env : Env) (data : value)
  : option (string * value * value * float * value) :=
  match decoded data with
  | Ok (VDict d) =>
      match field d "symbol" (VStr "") with
      | VStr s =>
          match py_float (unicode_float env) (field d "quantity" (VFloat 0.001)) with
          | Ok q =>
              Some (Str.replace s "BINANCE:" "",
                    field d "signal" (VStr "BUY"),
                    field d "side" (VStr "BUY"),
                    q,
                    field d "price" VNone)
          | Raise _ => None
          end
      | _ => None
      end
  | _ => None
  end.

Definition alert_of (env : Env) (data : value) : value :=
  match alert_fields env data with
  | Some (symbol, signal, side, quantity, price) =>
      alert_dict env symbol signal side quantity price
  | None => VNone
  end.

(** What [place_order] returns for an answer of the exchange client. *)
Definition order_result_of (answer : outcome value) (symbol : string)
  (side quantity : value) : value :=
  match answer with
  | Ok (VDict d) =>
      VDict [("success", VBool true);
             ("order_id", field d "orderId" VNone);
             ("symbol", VStr symbol);
             ("side", side);
             ("quantity", quantity);
             ("status", field d "status" VNone)]
  | Ok order => order_failure (AttributeError order "get")
  | Raise e => order_failure e
  end.

(** The responses of the handler. *)
Definition invalid_signature : Response :=
  {| json := VDict [("error", VStr "Invalid signature")]; status_code := 401 |}.

Definition invalid_alert : Response :=
  {| json := VDict [("error", VStr "Invalid alert data")]; status_code := 400 |}.

Definition order_placed (order_result : value) : Response :=
  {| json := VDict [("status", VStr "success");
                    ("message", VStr "Order placed successfully");
                    ("order", order_result)];
     status_code := 200 |}.

Definition order_failed (error : value) : Response :=
  {| json := VDict [("status", VStr "error");
                    ("message", VStr "Failed to place order");
                    ("error", error)];
     status_code := 400 |}.

Definition server_error (e : exn) : Response :=
  {| json := VDict [("error", VStr (exn_str e))]; status_code := 500 |}.

(** The response to the answer of the exchange client. *)
Definition response_of (answer : outcome value) (symbol : string)
  (side quantity : value) : Response :=
  match answer with
  | Ok (VDict d) => order_placed (order_result_of answer symbol side quantity)
  | Ok order => order_failed (VStr (exn_str (AttributeError order "get")))
  | Raise e => order_failed (VStr (exn_str e))
  end.

(** What the handler does once the signature check lets the request
    through (lines 96 to 120). *)
Definition handled (env : Env) (raw_data : string) : M Response :=
  match alert_fields env (VStr raw_data) with
  | None => ([EvParse (VStr raw_data)], Ok invalid_alert)
  | Some (s, signal, side, q, price) =>
      ([EvParse (VStr raw_data);
        EvPlaceOrder (VStr s) side (VFloat q) "MARKET" price;
        EvOrderMarket (normalize_symbol env s) side (VFloat q)],
       Ok (response_of
             (order_market (client env) (normalize_symbol env s) side (VFloat q))
             (normalize_symbol env s) side (VFloat q)))
  end.

(** The handler after the signature check, as [webhook] has it. *)
Definition after_check (env : Env) (raw_data : string) (invalid : bool) : M Response :=
  if invalid then
    ret {| json := VDict [("error", VStr "Invalid signature")];
           status_code := 401 |}
  else
    alert_data <- parse_tradingview_alert env (VStr raw_data) ;;
    if negb (truthy alert_data) then
      ret {| json := VDict [("error", VStr "Invalid alert data")];
             status_code := 400 |}
    else
      symbol <- lift (py_getitem alert_data "symbol") ;;
      side <- lift (py_getitem alert_data "side") ;;
      quantity <- lift (py_getitem alert_data "quantity") ;;
      price <- lift (py_get alert_data "price" VNone) ;;
      order_result <- place_order env symbol side quantity
                        default_order_type price ;;
      success <- lift (py_getitem order_result "success") ;;
      if truthy success then
        ret {| json := VDict [("status", VStr "success");
                              ("message", VStr "Order placed successfully");
                              ("order", order_result)];
               status_code := 200 |}
      else
        error <- lift (py_get order_result "error" VNone) ;;
        ret {| json := VDict [("status", VStr "error");
                              ("message", VStr "Failed to place order");
                              ("error", error)];
               status_code := 400 |}.

Definition on_exception (e : exn) : M Response :=
  ret {| json := VDict [("error", VStr (exn_str e))]; status_code := 500 |}.

(** The request passes the signature check of the handler: it carries no
    signature, an empty one, or the one computed from its body. *)
Definition passes_check (env : Env) (request : Request) : bool :=
  match x_tradingview_signature request with
  | None => true
  | Some signature =>
      (signature =? "") || (computed_signature env (get_data request) =? signature)
  end.

Definition is_exchange_call (ev : event) : bool :=
  match ev with
  | EvOrderMarket _ _ _ | EvOrderLimit _ _ _ _ _ => true
  | _ => false
  end.

Definition is_verify (ev : event) : bool :=
  match ev with
  | EvVerify _ _ => true
  | _ => false
  end.

(** The response carries an error text that is not empty. *)
Definition has_error_text (response : Response) : Prop :=
  exists msg, py_get (json response) "error" VNone = Ok (VStr msg) /\ msg <> "".

(** ** Sample data *)

(** An exchange client that gives the same answer to every call. *)
Definition answering (answer : outcome value) : Client :=
  {| order_market := fun _ _ _ => answer;
     order_limit := fun _ _ _ _ _ => answer |}.

Definition sample_env (answer : outcome value) : Env :=
  {| WEBHOOK_SECRET := "your-webhook-secret";
     client := answering answer;
     datetime_now_isoformat := "2024-05-01T12:00:00";
     unicode_upper := fun s => s;
     unicode_float := fun _ => None |}.

Definition filled : outcome value :=
  Ok (VDict [("orderId", VInt 28); ("status", VStr "FILLED")]).

Definition btc_alert : string :=
  dq "{'symbol':'BTC','side':'BUY','quantity':0.01}".

Definition priced_alert : string :=
  dq "{'symbol':'BTC','side':'BUY','quantity':0.01,'price':65000}".

(** An alert whose quantity is not a number. *)
Definition bad_quantity_alert : string :=
  dq "{'symbol':'BTC','quantity':'lots'}".

Definition symbol_only_alert : string :=
  dq "{'symbol':'BINANCE:BTCUSDT'}".

Definition lower_case_alert : string :=
  dq "{'symbol':'eth','side':'SELL','quantity':2}".

Definition eth_alert : string :=
  dq "{'symbol':'BINANCE:ETHUSDT','side':'SELL','quantity':0.5}".

Definition insufficient_balance : exn :=
  Exn "BinanceAPIException" "APIError(code=-2010): insufficient balance".

(** The letter e with an acute accent, as a header value. *)
Definition non_ascii_signature : string := String "195" (String "169" EmptyString).

(** * Properties *)

(** ** Known answers of the runtime functions *)

Example sha256_of_abc :
  Sha256.hexdigest (encode "abc")
  = "ba7816bf8f01cfea414140de5dae2223b00361a396177a9cb410ff61f20015ad".
Proof. vm_compute. reflexivity. Qed.

Example sha256_of_two_blocks :
  Sha256.hexdigest
    (encode "abcdbcdecdefdefgefghfghighijhijkijkljklmklmnlmnomnopnopq")
  = "248d6a61d20638b8e5c026930c3e6039a33ce45964ff2167f6ecedd419db06c1".
Proof. vm_compute. reflexivity. Qed.

Example hmac_of_rfc4231_case_2 :
  Sha256.hmac_hexdigest (encode "Jefe") (encode "what do ya want for nothing?")
  = "5bdcc146bf60754e6a042426089575c75a003f089d2739839dec58b964ec3843".
Proof. vm_compute. reflexivity. Qed.

Example signature_of_btc_alert :
  computed_signature (sample_env filled) btc_alert
  = "963ddc0b6185bd88bba9eb6a6cf5eae95ac8d38cea618a81d40f7568fb1b637d".
Proof. vm_compute. reflexivity. Qed.

Example replace_is_one_pass :
  Str.replace "BINBINANCE:ANCE:X" "BINANCE:" "" = "BINANCE:X" /\
  Str.replace "aaaa" "aa" "b" = "bb" /\
  Str.replace "ab" "" "-" = "-a-b-".
Proof. repeat split. Qed.

Example endswith_is_case_sensitive :
  Str.endswith "BTCUSDT" "USDT" = true /\
  Str.endswith "btcusdt" "USDT" = false /\
  Str.endswith "SDT" "USDT" = false.
Proof. repeat split. Qed.

Example float_of_text :
  Float.of_ascii_str "0.001" = Some 0.001%float /\
  Float.of_ascii_str " 1_0.5 " = Some 10.5%float /\
  Float.of_ascii_str "1e400" = Some infinity /\
  Float.of_ascii_str "-.5E1" = Some (-5)%float /\
  Float.of_ascii_str "1__0" = None /\
  Float.of_ascii_str "lots" = None /\
  Float.of_ascii_str "" = None.
Proof. repeat split; vm_compute; reflexivity. Qed.

Example float_of_int :
  py_float (fun _ => None) (VInt 9007199254740993) = Ok 9007199254740992%float /\
  py_float (fun _ => None) (VInt (2 ^ 1024 - 2 ^ 970 - 1))
  = Ok 0x1.fffffffffffffp+1023%float /\
  py_float (fun _ => None) (VInt (2 ^ 1024 - 2 ^ 970))
  = Raise (Exn "OverflowError" "int too large to convert to float").
Proof. repeat split; vm_compute; reflexivity. Qed.

Example json_of_object :
  Json.decode (dq "{'a': [1, 2.5e0, null], 'b': 'x\u00e9y\n', 'a': true}")
  = Some (VDict [("a", VBool true);
                 ("b", VStr (String "x" (String "195" (String "169"
                               (String "y" (String "010" EmptyString))))))]) /\
  Json.decode "[1,]" = None /\
  Json.decode "{} x" = None /\
  Json.decode "01" = None /\
  Json.decode " -Infinity " = Some (VFloat neg_infinity).
Proof. repeat split; vm_compute; reflexivity. Qed.

(** ** The decoder never lacks fuel

    Every call of the scanners reads at least one character, so the fuel
    that [Json.decode] computes from the length of the text is enough. *)

(** The next [match] of a hypothesis, taken apart by cases. *)
Ltac break_match H :=
  match type of H with
  | context [match ?x with _ => _ end] =>
      lazymatch x with
      | context [match _ with _ => _ end] => fail
      | _ => destruct x eqn:?
      end
  end.

Lemma skip_ws_length (s : string) :
  (String.length (Json.skip_ws s) <= String.length s)%nat.
Proof.
  induction s as [|c s IH]; simpl; [lia|].
  destruct (Json.is_ws c); simpl; lia.
Qed.

Lemma take_digits_length (s d r : string) :
  Float.take_digits s = (d, r) -> (String.length r <= String.length s)%nat.
Proof.
  revert d r. induction s as [|c s IH]; simpl; intros d r H.
  - injection H as <- <-. simpl. lia.
  - destruct (Float.is_digit c).
    + destruct (Float.take_digits s) as [d' r'] eqn:E.
      injection H as <- <-. specialize (IH _ _ eq_refl). lia.
    + injection H as <- <-. simpl. lia.
Qed.

Lemma option_map_some {A B} (f : A -> B) (o : option A) (b : B) :
  option_map f o = Some b -> exists a, o = Some a /\ f a = b.
Proof. destruct o; simpl; intros H; [injection H as <-; eauto|discriminate]. Qed.

Lemma scanstring_length_le (n : nat) :
  forall s t r,
    (String.length s <= n)%nat ->
    Json.scanstring s = Some (t, r) -> (String.length r < String.length s)%nat.
Proof.
  induction n as [|n IH]; intros s t r Hn H.
  - destruct s; [discriminate|simpl in Hn; lia].
  - destruct s as [|c s]; [discriminate|].
    cbn [Json.scanstring] in H. simpl in Hn.
    repeat (break_match H; try discriminate);
      repeat match goal with
        | H : option_map _ _ = Some _ |- _ =>
            apply option_map_some in H; destruct H as ([t' r'] & H & ?)
        | H : Json.scanstring _ = Some _ |- _ =>
            apply IH in H; [|simpl in *; lia]
        | H : Some _ = Some _ |- _ => injection H as ? ?
        | H : (_, _) = (_, _) |- _ => injection H as ? ?
        end; subst; simpl in *; try lia.
Qed.

Lemma scanstring_length (s t r : string) :
  Json.scanstring s = Some (t, r) -> (String.length r < String.length s)%nat.
Proof. apply (scanstring_length_le (String.length s)). lia. Qed.

Lemma match_number_length (s t r : string) (b : bool) :
  Json.match_number s = Some (t, b, r) -> (String.length r < String.length s)%nat.
Proof.
  unfold Json.match_number. intros H.
  repeat (break_match H; try discriminate);
    repeat match goal with
      | H : Some _ = Some _ |- _ => injection H as ? ? ?
      | H : (_, _) = (_, _) |- _ => injection H as ? ?
      | H : Float.take_digits _ = (_, _) |- _ => apply take_digits_length in H
      end; subst; simpl in *; try lia.
Qed.

Lemma drop_prefix_length (p s : string) :
  Str.startswith s p = true ->
  (String.length (Str.drop (String.length p) s) + String.length p
   = String.length s)%nat.
Proof.
  unfold Str.startswith. revert s.
  induction p as [|c p IH]; intros s H.
  - destruct s; simpl; lia.
  - destruct s as [|c' s]; [discriminate|]. simpl in H.
    destruct (ascii_dec c c'); [|discriminate].
    simpl. specialize (IH s H). lia.
Qed.

Lemma scan_once_S (f : nat) (s : string) :
  Json.scan_once (S f) s
  = match s with
    | EmptyString => None
    | String c r =>
        if Ascii.eqb c "034" then
          option_map (fun p => (VStr (fst p), snd p)) (Json.scanstring r)
        else if Ascii.eqb c "{" then
          match Json.skip_ws r with
          | String "}" r' => Some (VDict [], r')
          | r' => Json.parse_members f r' []
          end
        else if Ascii.eqb c "[" then
          match Json.skip_ws r with
          | String "]" r' => Some (VList [], r')
          | r' => Json.parse_items f r' []
          end
        else if Str.startswith s "null" then Some (VNone, Str.drop 4 s)
        else if Str.startswith s "true" then Some (VBool true, Str.drop 4 s)
        else if Str.startswith s "false" then Some (VBool false, Str.drop 5 s)
        else if Str.startswith s "NaN" then Some (VFloat nan, Str.drop 3 s)
        else if Str.startswith s "Infinity" then
          Some (VFloat infinity, Str.drop 8 s)
        else if Str.startswith s "-Infinity" then
          Some (VFloat neg_infinity, Str.drop 9 s)
        else
          match Json.match_number s with
          | Some (t, true, r') =>
              option_map (fun x => (VFloat x, r')) (Float.of_ascii_str t)
          | Some (t, false, r') => Some (VInt (Json.int_of_text t), r')
          | None => None
          end
    end.
Proof. reflexivity. Qed.

Lemma parse_items_S (f : nat) (s : string) (acc : list value) :
  Json.parse_items (S f) s acc
  = match Json.scan_once f s with
    | None => None
    | Some (v, r) =>
        match Json.skip_ws r with
        | String "]" r' => Some (VList (rev (v :: acc)), r')
        | String "," r' => Json.parse_items f (Json.skip_ws r') (v :: acc)
        | _ => None
        end
    end.
Proof. reflexivity. Qed.

Lemma parse_members_S (f : nat) (s : string) (acc : dict) :
  Json.parse_members (S f) s acc
  = match s with
    | String "034" r =>
        match Json.scanstring r with
        | None => None
        | Some (key, r1) =>
            match Json.skip_ws r1 with
            | String ":" r2 =>
                match Json.scan_once f (Json.skip_ws r2) with
                | None => None
                | Some (v, r3) =>
                    let acc' := dict_set acc key v in
                    match Json.skip_ws r3 with
                    | String "}" r' => Some (VDict acc', r')
                    | String "," r' =>
                        Json.parse_members f (Json.skip_ws r') acc'
                    | _ => None
                    end
                end
            | _ => None
            end
        end
    | _ => None
    end.
Proof. reflexivity. Qed.

(** What follows a separator is shorter than the text it was found in. *)
Lemma skip_ws_cons (s r : string) (c : ascii) :
  Json.skip_ws s = String c r -> (String.length r < String.length s)%nat.
Proof.
  intros H. pose proof (skip_ws_length s) as Hl. rewrite H in Hl. simpl in Hl. lia.
Qed.

Definition consumes (f : nat) : Prop :=
  (forall s v r, Json.scan_once f s = Some (v, r) ->
                 (String.length r < String.length s)%nat) /\
  (forall s acc v r, Json.parse_items f s acc = Some (v, r) ->
                     (String.length r < String.length s)%nat) /\
  (forall s acc v r, Json.parse_members f s acc = Some (v, r) ->
                     (String.length r < String.length s)%nat).

Lemma scanners_consume (f : nat) : consumes f.
Proof.
  induction f as [|f (IHs & IHi & IHm)]; [repeat split; intros; discriminate|].
  repeat split.
  - intros s v r H. rewrite scan_once_S in H.
    destruct s as [|c s]; [discriminate|].
    destruct (Ascii.eqb c "034").
    { apply option_map_some in H. destruct H as ([t r'] & H & Heq).
      injection Heq as <- <-. apply scanstring_length in H. simpl. lia. }
    destruct (Ascii.eqb c "{").
    { pose proof (skip_ws_length s) as Hl.
      destruct (Json.skip_ws s) as [|c' r'] eqn:Hw.
      - apply IHm in H. simpl in *. lia.
      - assert (Hc : Json.parse_members f (String c' r') [] = Some (v, r)
                     \/ (v, r) = (VDict [], r')).
        { destruct c' as [[] [] [] [] [] [] [] []]; auto.
          injection H as <- <-. auto. }
        destruct Hc as [Hc|Hc].
        + apply IHm in Hc. simpl in *. lia.
        + injection Hc as -> ->. simpl in *. lia. }
    destruct (Ascii.eqb c "[").
    { pose proof (skip_ws_length s) as Hl.
      destruct (Json.skip_ws s) as [|c' r'] eqn:Hw.
      - apply IHi in H. simpl in *. lia.
      - assert (Hc : Json.parse_items f (String c' r') [] = Some (v, r)
                     \/ (v, r) = (VList [], r')).
        { destruct c' as [[] [] [] [] [] [] [] []]; auto.
          injection H as <- <-. auto. }
        destruct Hc as [Hc|Hc].
        + apply IHi in Hc. simpl in *. lia.
        + injection Hc as -> ->. simpl in *. lia. }
    repeat match type of H with
      | (if Str.startswith ?s ?p then _ else _) = _ =>
          destruct (Str.startswith s p) eqn:?;
          [injection H as <- <-;
           match goal with
           | Hp : Str.startswith _ _ = true |- _ =>
               apply drop_prefix_length in Hp; simpl String.length in *; lia
           end|]
      end.
    destruct (Json.match_number (String c s)) as [[[t b] r']|] eqn:Hn;
      [|discriminate].
    apply match_number_length in Hn.
    destruct b.
    + apply option_map_some in H. destruct H as (x & _ & Heq).
      injection Heq as <- <-. exact Hn.
    + injection H as <- <-. exact Hn.
  - intros s acc v r H. rewrite parse_items_S in H.
    destruct (Json.scan_once f s) as [[v' r1]|] eqn:Hs; [|discriminate].
    apply IHs in Hs.
    destruct (Json.skip_ws r1) as [|c r2] eqn:Hw; [discriminate|].
    apply skip_ws_cons in Hw.
    assert (Hc : (v, r) = (VList (rev (v' :: acc)), r2)
                 \/ Json.parse_items f (Json.skip_ws r2) (v' :: acc) = Some (v, r)).
    { destruct c as [[] [] [] [] [] [] [] []]; try discriminate; auto.
      injection H as <- <-. auto. }
    destruct Hc as [Hc|Hc].
    + injection Hc as -> ->. lia.
    + apply IHi in Hc. pose proof (skip_ws_length r2). lia.
  - intros s acc v r H. rewrite parse_members_S in H.
    destruct s as [|c0 s0]; [discriminate|].
    assert (H' : match Json.scanstring s0 with
                 | None => None
                 | Some (key, r1) =>
                     match Json.skip_ws r1 with
                     | String ":" r2 =>
                         match Json.scan_once f (Json.skip_ws r2) with
                         | None => None
                         | Some (v, r3) =>
                             let acc' := dict_set acc key v in
                             match Json.skip_ws r3 with
                             | String "}" r' => Some (VDict acc', r')
                             | String "," r' =>
                                 Json.parse_members f (Json.skip_ws r') acc'
                             | _ => None
                             end
                         end
                     | _ => None
                     end
                 end = Some (v, r)).
    { destruct c0 as [[] [] [] [] [] [] [] []]; try discriminate; exact H. }
    clear H.
    destruct (Json.scanstring s0) as [[key r1]|] eqn:Hk; [|discriminate].
    apply scanstring_length in Hk.
    destruct (Json.skip_ws r1) as [|c1 r2] eqn:Hw1; [discriminate|].
    apply skip_ws_cons in Hw1.
    assert (H : match Json.scan_once f (Json.skip_ws r2) with
                | None => None
                | Some (v, r3) =>
                    let acc' := dict_set acc key v in
                    match Json.skip_ws r3 with
                    | String "}" r' => Some (VDict acc', r')
                    | String "," r' =>
                        Json.parse_members f (Json.skip_ws r') acc'
                    | _ => None
                    end
                end = Some (v, r)).
    { destruct c1 as [[] [] [] [] [] [] [] []]; try discriminate; exact H'. }
    clear H'.
    destruct (Json.scan_once f (Json.skip_ws r2)) as [[v' r3]|] eqn:Hs;
      [|discriminate].
    apply IHs in Hs. pose proof (skip_ws_length r2) as Hl2.
    cbv zeta in H.
    destruct (Json.skip_ws r3) as [|c3 r4] eqn:Hw3; [discriminate|].
    apply skip_ws_cons in Hw3.
    assert (Hc : (v, r) = (VDict (dict_set acc key v'), r4)
                 \/ Json.parse_members f (Json.skip_ws r4) (dict_set acc key v')
                    = Some (v, r)).
    { destruct c3 as [[] [] [] [] [] [] [] []]; try discriminate; auto.
      injection H as <- <-. auto. }
    destruct Hc as [Hc|Hc].
    + injection Hc as -> ->. simpl. lia.
    + apply IHm in Hc. pose proof (skip_ws_length r4). simpl. lia.
Qed.

Definition enough (f : nat) : Prop :=
  (forall s x k, Json.scan_once f s = Some x ->
                 (2 * String.length s + 1 <= k)%nat ->
                 Json.scan_once k s = Some x) /\
  (forall s acc x k, Json.parse_items f s acc = Some x ->
                     (2 * String.length s + 2 <= k)%nat ->
                     Json.parse_items k s acc = Some x) /\
  (forall s acc x k, Json.parse_members f s acc = Some x ->
                     (2 * String.length s + 2 <= k)%nat ->
                     Json.parse_members k s acc = Some x).

Lemma fuel_enough (f : nat) : enough f.
Proof.
  induction f as [|f (IHs & IHi & IHm)]; [repeat split; intros; discriminate|].
  destruct (scanners_consume f) as (Cs & Ci & Cm).
  repeat split.
  - intros s x k H Hk. destruct k as [|k]; [lia|].
    rewrite scan_once_S in H |- *.
    destruct s as [|c s]; [discriminate|]. simpl String.length in Hk.
    destruct (Ascii.eqb c "034"); [exact H|].
    pose proof (skip_ws_length s) as Hl.
    destruct (Ascii.eqb c "{").
    { destruct (Json.skip_ws s) as [|c' r'] eqn:Hw.
      - apply IHm; [exact H|simpl; lia].
      - destruct c' as [[] [] [] [] [] [] [] []]; try exact H;
          (apply IHm; [exact H|simpl in *; lia]). }
    destruct (Ascii.eqb c "[").
    { destruct (Json.skip_ws s) as [|c' r'] eqn:Hw.
      - apply IHi; [exact H|simpl; lia].
      - destruct c' as [[] [] [] [] [] [] [] []]; try exact H;
          (apply IHi; [exact H|simpl in *; lia]). }
    exact H.
  - intros s acc x k H Hk. destruct k as [|k]; [lia|].
    rewrite parse_items_S in H |- *.
    destruct (Json.scan_once f s) as [[v r1]|] eqn:Hs; [|discriminate].
    rewrite (IHs _ _ k Hs) by lia. apply Cs in Hs.
    destruct (Json.skip_ws r1) as [|c r2] eqn:Hw; [discriminate|].
    apply skip_ws_cons in Hw. pose proof (skip_ws_length r2) as Hl.
    destruct c as [[] [] [] [] [] [] [] []]; try exact H.
    apply IHi; [exact H|lia].
  - intros s acc x k H Hk. destruct k as [|k]; [lia|].
    rewrite parse_members_S in H |- *.
    destruct s as [|c0 s0]; [discriminate|]. simpl String.length in Hk.
    destruct c0 as [[] [] [] [] [] [] [] []]; try exact H.
    destruct (Json.scanstring s0) as [[key r1]|] eqn:Hkey; [|discriminate].
    apply scanstring_length in Hkey.
    destruct (Json.skip_ws r1) as [|c1 r2] eqn:Hw1; [discriminate|].
    apply skip_ws_cons in Hw1. pose proof (skip_ws_length r2) as Hl2.
    destruct c1 as [[] [] [] [] [] [] [] []]; try exact H.
    destruct (Json.scan_once f (Json.skip_ws r2)) as [[v r3]|] eqn:Hs;
      [|discriminate].
    rewrite (IHs _ _ k Hs) by lia. apply Cs in Hs.
    cbv zeta in H |- *.
    destruct (Json.skip_ws r3) as [|c3 r4] eqn:Hw3; [discriminate|].
    apply skip_ws_cons in Hw3. pose proof (skip_ws_length r4) as Hl4.
    destruct c3 as [[] [] [] [] [] [] [] []]; try exact H.
    apply IHm; [exact H|lia].
Qed.

(** The fuel [decode] gives is enough: a text that is read with some fuel
    is read, to the same value, with that of [decode]. *)
Lemma decode_fuel (f : nat) (s : string) (x : value * string) :
  Json.scan_once f (Json.skip_ws s) = Some x ->
  Json.scan_once (2 * String.length s + 2) (Json.skip_ws s) = Some x.
Proof.
  intros H. destruct (fuel_enough f) as (Hs & _ & _).
  apply (Hs _ _ _ H). pose proof (skip_ws_length s). lia.
Qed.

Lemma decode_complete (f : nat) (s : string) (v : value) (r : string) :
  Json.scan_once f (Json.skip_ws s) = Some (v, r) ->
  Json.skip_ws r = "" ->
  Json.decode s = Some v.
Proof.
  intros H Hr. unfold Json.decode. rewrite (decode_fuel f s _ H), Hr.
  reflexivity.
Qed.

(** ** The monad *)

Lemma bind_ret_l {A B} (a : A) (f : A -> M B) : bind (ret a) f = f a.
Proof. unfold bind, ret. destruct (f a). reflexivity. Qed.

Lemma bind_lift_ok {A B} (a : A) (f : A -> M B) : bind (lift (Ok a)) f = f a.
Proof. apply bind_ret_l. Qed.

Lemma bind_lift_raise {A B} (e : exn) (f : A -> M B) :
  bind (lift (Raise e)) f = raise e.
Proof. reflexivity. Qed.

Lemma bind_raise {A B} (e : exn) (f : A -> M B) : bind (raise e) f = raise e.
Proof. reflexivity. Qed.

Lemma bind_emit {B} (ev : event) (k : M B) :
  bind (emit ev) (fun _ => k) = (ev :: trace k, result k).
Proof. unfold bind, emit. destruct k. reflexivity. Qed.

Lemma bind_cons {A B} (ev : event) (t : list event) (o : outcome A)
  (f : A -> M B) :
  bind (ev :: t, o) f = (ev :: trace (bind (t, o) f), result (bind (t, o) f)).
Proof.
  unfold bind. destruct o as [a|e]; [destruct (f a)|]; reflexivity.
Qed.

Lemma try_except_ret {A} (a : A) (h : exn -> M A) : try_except (ret a) h = ret a.
Proof. reflexivity. Qed.

Lemma try_except_raise {A} (e : exn) (h : exn -> M A) :
  try_except (raise e) h = h e.
Proof. unfold try_except, raise. destruct (h e). reflexivity. Qed.

Lemma try_except_cons {A} (ev : event) (t : list event) (o : outcome A)
  (h : exn -> M A) :
  try_except (ev :: t, o) h
  = (ev :: trace (try_except (t, o) h), result (try_except (t, o) h)).
Proof.
  unfold try_except. destruct o as [a|e]; [|destruct (h e)]; reflexivity.
Qed.

Lemma surjective_M {A} (m : M A) : (trace m, result m) = m.
Proof. destruct m; reflexivity. Qed.

(** ** Strings *)

Lemma endswith_refl (s : string) : Str.endswith s s = true.
Proof. destruct s; cbn [Str.endswith]; rewrite String.eqb_refl; reflexivity. Qed.

Lemma endswith_app (s suffix : string) :
  Str.endswith (s ++ suffix) suffix = true.
Proof.
  induction s as [|c s IH].
  - apply endswith_refl.
  - change (String c s ++ suffix) with (String c (s ++ suffix)).
    cbn [Str.endswith]. rewrite IH. apply orb_true_r.
Qed.

Lemma replace_scan_absent (old new s : string) :
  Str.contains s old = false -> Str.replace_scan old new O s = s.
Proof.
  induction s as [|c s IH]; simpl; intros H; [reflexivity|].
  apply orb_false_elim in H. destruct H as [Hp Hc].
  unfold Str.startswith at 1. simpl. unfold Str.startswith in Hp. simpl in Hp.
  rewrite Hp. rewrite (IH Hc). reflexivity.
Qed.

(** A text in which [old] does not occur is left as it is. *)
Lemma replace_absent (s old new : string) :
  old <> "" -> Str.contains s old = false -> Str.replace s old new = s.
Proof.
  intros Hold H. destruct old as [|c old]; [congruence|].
  unfold Str.replace. apply replace_scan_absent. exact H.
Qed.

Lemma replace_scan_skip (old new : string) (n : nat) (p s : string) :
  String.length p = n ->
  Str.replace_scan old new n (p ++ s) = Str.replace_scan old new O s.
Proof.
  revert p. induction n as [|n IH]; intros p Hp.
  - destruct p; [reflexivity|discriminate].
  - destruct p as [|c p]; [discriminate|]. simpl. apply IH.
    simpl in Hp. congruence.
Qed.

Lemma startswith_app (p t : string) : Str.startswith (p ++ t) p = true.
Proof.
  unfold Str.startswith. induction p as [|c p IH]; simpl.
  - destruct t; reflexivity.
  - destruct (ascii_dec c c); [exact IH|congruence].
Qed.

(** The marker at the head of a symbol is taken away, and so is every
    further occurrence in what follows it. *)
Lemma replace_prefix (t : string) :
  Str.replace ("BINANCE:" ++ t) "BINANCE:" ""
  = Str.replace t "BINANCE:" "".
Proof.
  unfold Str.replace.
  pose proof (startswith_app "BINANCE:" t) as Hp.
  change ("BINANCE:" ++ t) with (String "B" ("INANCE:" ++ t)) in *.
  cbn [Str.replace_scan]. rewrite Hp.
  simpl String.length. simpl Nat.pred.
  rewrite (replace_scan_skip "BINANCE:" "" 7 "INANCE:" t eq_refl).
  reflexivity.
Qed.

Lemma append_empty_r (s : string) : s ++ "" = s.
Proof. induction s as [|c s IH]; simpl; [reflexivity|]. rewrite IH. reflexivity. Qed.

Lemma append_cons (c : ascii) (x r : string) :
  String c x ++ r = String c (x ++ r).
Proof. reflexivity. Qed.

Lemma prefix_cons (a c : ascii) (p s : string) :
  String.prefix (String a p) (String c s)
  = if ascii_dec a c then String.prefix p s else false.
Proof. reflexivity. Qed.

Lemma prefix_empty (s : string) : String.prefix "" s = true.
Proof. destruct s; reflexivity. Qed.

(** The marker does not overlap itself: where it does not start in a
    text, it does not start there either when the text goes on with the
    marker. *)
Lemma marker_does_not_straddle (c : ascii) (x rest : string) :
  Str.startswith (String c x) "BINANCE:" = false ->
  Str.startswith (String c x ++ "BINANCE:" ++ rest) "BINANCE:" = false.
Proof.
  unfold Str.startswith. rewrite append_cons, !prefix_cons.
  destruct (ascii_dec "B" c); [|reflexivity].
  repeat (destruct x as [|? x];
          [intros _; change ("" ++ "BINANCE:" ++ rest)
                       with (String "B" ("INANCE:" ++ rest));
           rewrite prefix_cons;
           match goal with
           | |- context [ascii_dec ?a ?b] =>
               destruct (ascii_dec a b) as [E|_]; [discriminate E|reflexivity]
           end
          |rewrite append_cons, !prefix_cons;
           match goal with
           | |- context [ascii_dec ?a ?b] =>
               destruct (ascii_dec a b); [|reflexivity]
           end]).
  rewrite prefix_empty. intros H. discriminate H.
Qed.

Lemma replace_scan_part (x rest : string) :
  Str.contains x "BINANCE:" = false ->
  rest = "" \/ (exists r, rest = "BINANCE:" ++ r) ->
  Str.replace_scan "BINANCE:" "" O (x ++ rest)
  = x ++ Str.replace_scan "BINANCE:" "" O rest.
Proof.
  intros Hx Hrest. induction x as [|c x IH]; [reflexivity|].
  cbn [Str.contains] in Hx. apply orb_false_elim in Hx. destruct Hx as [Hs Hc].
  assert (Hstart : Str.startswith (String c x ++ rest) "BINANCE:" = false).
  { destruct Hrest as [-> | (r & ->)].
    - rewrite append_empty_r. exact Hs.
    - apply marker_does_not_straddle. exact Hs. }
  change (String c x ++ rest) with (String c (x ++ rest)) in *.
  cbn [Str.replace_scan]. rewrite Hstart, (IH Hc). reflexivity.
Qed.

(** Every marker goes, wherever it stands: a text made of parts without
    the marker, with the marker between them, comes out as the parts
    alone. *)
Lemma replace_all_markers (head : string) (parts : list string) :
  Str.contains head "BINANCE:" = false ->
  forallb (fun p => negb (Str.contains p "BINANCE:")) parts = true ->
  Str.replace (head ++ with_marker parts) "BINANCE:" ""
  = head ++ without_marker parts.
Proof.
  unfold Str.replace. revert head.
  induction parts as [|p parts IH]; intros head Hhead Hparts.
  - cbn [with_marker without_marker].
    rewrite (replace_scan_part head "" Hhead) by (left; reflexivity).
    reflexivity.
  - cbn [forallb] in Hparts. apply andb_prop in Hparts.
    destruct Hparts as [Hp Hparts]. apply negb_true_iff in Hp.
    cbn [with_marker without_marker].
    rewrite (replace_scan_part head _ Hhead)
      by (right; eexists; reflexivity).
    f_equal.
    pose proof (replace_prefix (p ++ with_marker parts)) as Hm.
    unfold Str.replace in Hm. rewrite Hm. apply IH; assumption.
Qed.

(** A text that starts with [p] is [p] and a rest. *)
Lemma startswith_split (p s : string) :
  Str.startswith s p = true ->
  exists t, s = p ++ t /\
            String.length s = (String.length p + String.length t)%nat.
Proof.
  unfold Str.startswith. revert s.
  induction p as [|a p IH]; intros s H.
  - exists s. split; reflexivity.
  - destruct s as [|c s]; [discriminate H|].
    rewrite prefix_cons in H.
    destruct (ascii_dec a c) as [->|]; [|discriminate H].
    destruct (IH s H) as (t & -> & Hlen). exists t. split; [reflexivity|].
    change (String c p ++ t) with (String c (p ++ t)).
    cbn [String.length]. rewrite Hlen. reflexivity.
Qed.

(** What starts a text starts every text that goes on from it. *)
Lemma startswith_longer (p a b : string) :
  Str.startswith a p = true -> Str.startswith (a ++ b) p = true.
Proof.
  unfold Str.startswith. revert a.
  induction p as [|x p IH]; intros a H.
  - apply prefix_empty.
  - destruct a as [|c a]; [discriminate H|].
    change (String c a ++ b) with (String c (a ++ b)).
    rewrite prefix_cons in *.
    destruct (ascii_dec x c); [apply IH; exact H|discriminate H].
Qed.

(** Every text is made of parts without the marker, with the marker
    before the second and every later part. *)
Lemma marker_parts (s : string) :
  exists head parts,
    s = head ++ with_marker parts /\
    Str.contains head "BINANCE:" = false /\
    forallb (fun p => negb (Str.contains p "BINANCE:")) parts = true.
Proof.
  remember (String.length s) as n eqn:Hn.
  assert (Hle : (String.length s <= n)%nat) by lia. clear Hn.
  revert s Hle. induction n as [|n IH]; intros s Hle.
  - destruct s as [|c s]; [|cbn [String.length] in Hle; lia].
    exists "", []. repeat split; reflexivity.
  - destruct s as [|c s]; [exists "", []; repeat split; reflexivity|].
    destruct (Str.startswith (String c s) "BINANCE:") eqn:Hstart.
    + destruct (startswith_split _ _ Hstart) as (t & Ht & Hlt).
      assert (Hlen : (String.length t <= n)%nat).
      { change (String.length "BINANCE:") with 8%nat in Hlt. lia. }
      destruct (IH t Hlen) as (head & parts & -> & Hhead & Hparts).
      exists "", (head :: parts). split; [exact Ht|]. split; [reflexivity|].
      cbn [forallb]. rewrite Hhead, Hparts. reflexivity.
    + assert (Hlen : (String.length s <= n)%nat)
        by (cbn [String.length] in Hle; lia).
      destruct (IH s Hlen) as (head & parts & Hs & Hhead & Hparts).
      exists (String c head), parts. split; [|split].
      * rewrite Hs at 1. reflexivity.
      * cbn [Str.contains]. rewrite Hhead, orb_false_r.
        destruct (Str.startswith (String c head) "BINANCE:") eqn:Hc;
          [|reflexivity].
        rewrite <- Hstart, Hs.
        change (String c (head ++ with_marker parts))
          with (String c head ++ with_marker parts).
        symmetry. apply startswith_longer. exact Hc.
      * exact Hparts.
Qed.

(** ** Signatures *)

Lemma hex_digit_ascii (n : Z) : Str.is_ascii_char (Sha256.hex_digit n) = true.
Proof.
  unfold Sha256.hex_digit. generalize (Z.to_nat n). intros k.
  do 16 (destruct k as [|k]; [reflexivity|]). destruct k; reflexivity.
Qed.

Lemma isascii_app (a b : string) :
  Str.isascii (a ++ b) = Str.isascii a && Str.isascii b.
Proof.
  induction a as [|c a IH]; simpl; [reflexivity|].
  rewrite IH. apply andb_assoc.
Qed.

Lemma hex_word_ascii (x : Z) : Str.isascii (Sha256.hex_word x) = true.
Proof.
  unfold Sha256.hex_word.
  change (rev (seq 0 8)) with [7; 6; 5; 4; 3; 2; 1; 0]%nat.
  cbn [map string_of_list_ascii Str.isascii].
  rewrite !hex_digit_ascii. reflexivity.
Qed.

Lemma hex_word_not_empty (x : Z) (s : string) : Sha256.hex_word x ++ s <> "".
Proof.
  unfold Sha256.hex_word.
  change (rev (seq 0 8)) with [7; 6; 5; 4; 3; 2; 1; 0]%nat.
  cbn [map string_of_list_ascii String.append]. discriminate.
Qed.

(** A hexadecimal digest is ASCII text and is not empty, so as a header
    value it is true and [compare_digest] takes it. *)
Lemma hex_state_ascii (s : Sha256.state) : Str.isascii (Sha256.hex_state s) = true.
Proof.
  unfold Sha256.hex_state. rewrite !isascii_app, !hex_word_ascii. reflexivity.
Qed.

Lemma hex_state_not_empty (s : Sha256.state) : Sha256.hex_state s <> "".
Proof. unfold Sha256.hex_state. apply hex_word_not_empty. Qed.

Lemma eqb_empty_false (s : string) : s <> "" -> (s =? "") = false.
Proof. intros H. apply String.eqb_neq. exact H. Qed.

#[local] Arguments json_loads : simpl never.
#[local] Arguments py_float : simpl never.
#[local] Arguments Str.replace : simpl never.
#[local] Arguments Str.isascii : simpl never.
#[local] Arguments Str.endswith : simpl never.
#[local] Arguments Str.upper : simpl never.
#[local] Arguments String.eqb : simpl never.
#[local] Arguments String.append : simpl never.

Section Facts.

Variable env : Env.

Lemma computed_signature_ascii (body : string) :
  Str.isascii (computed_signature env body) = true.
Proof. apply hex_state_ascii. Qed.

Lemma computed_signature_not_empty (body : string) :
  computed_signature env body <> "".
Proof. apply hex_state_not_empty. Qed.

(** The three ways [verify_webhook_signature] ends. *)
Lemma verify_valid (body : string) :
  verify_webhook_signature env body (computed_signature env body)
  = ([EvVerify body (computed_signature env body)], Ok true).
Proof.
  unfold verify_webhook_signature, compare_digest.
  rewrite computed_signature_ascii, String.eqb_refl. reflexivity.
Qed.

Lemma verify_mismatch (body signature : string) :
  Str.isascii signature = true ->
  signature <> computed_signature env body ->
  verify_webhook_signature env body signature
  = ([EvVerify body signature], Ok false).
Proof.
  intros Ha Hne. unfold verify_webhook_signature, compare_digest.
  rewrite computed_signature_ascii, Ha.
  replace (computed_signature env body =? signature) with false; [reflexivity|].
  symmetry. apply String.eqb_neq. congruence.
Qed.

Lemma verify_non_ascii (body signature : string) :
  Str.isascii signature = false ->
  verify_webhook_signature env body signature
  = ([EvVerify body signature],
     Raise (Exn "TypeError"
              "comparing strings with non-ASCII characters is not supported")).
Proof.
  intros Ha. unfold verify_webhook_signature, compare_digest.
  rewrite Ha, andb_false_r. reflexivity.
Qed.

(** [parse_tradingview_alert] always returns, and never raises. *)
Lemma parse_tradingview_alert_eq (data : value) :
  parse_tradingview_alert env data = ([EvParse data], Ok (alert_of env data)).
Proof.
  unfold parse_tradingview_alert, alert_of, alert_fields.
  fold (decoded data). rewrite bind_emit.
  destruct (decoded data) as [v|e]; [|reflexivity].
  destruct v as [| | | | |l|d]; try reflexivity.
  rewrite bind_lift_ok. unfold py_get. fold (field d "symbol" (VStr "")).
  rewrite bind_lift_ok.
  destruct (field d "symbol" (VStr "")) as [| | | |s| |]; try reflexivity.
  unfold py_replace. rewrite !bind_lift_ok.
  fold (field d "quantity" (VFloat 0.001)).
  fold (field d "signal" (VStr "BUY")).
  fold (field d "side" (VStr "BUY")).
  fold (field d "price" VNone).
  destruct (py_float (unicode_float env) (field d "quantity" (VFloat 0.001)))
    as [q|e]; reflexivity.
Qed.

Lemma order_result_tail (t : list event) (answer : outcome value)
  (symbol : string) (side quantity : value) :
  try_except
    (order <- (t, answer) ;;
     order_id <- lift (py_get order "orderId" VNone) ;;
     status <- lift (py_get order "status" VNone) ;;
     ret (VDict [("success", VBool true);
                 ("order_id", order_id);
                 ("symbol", VStr symbol);
                 ("side", side);
                 ("quantity", quantity);
                 ("status", status)]))
    (fun e => ret (order_failure e))
  = (t, Ok (order_result_of answer symbol side quantity)).
Proof.
  destruct answer as [order|e].
  - destruct order; cbn; rewrite ?app_nil_r; reflexivity.
  - cbn. rewrite app_nil_r. reflexivity.
Qed.

(** A market order: one call to the exchange, whatever [price] is. *)
Lemma place_order_market (s : string) (side quantity price : value) :
  place_order env (VStr s) side quantity "MARKET" price
  = ([EvPlaceOrder (VStr s) side quantity "MARKET" price;
      EvOrderMarket (normalize_symbol env s) side quantity],
     Ok (order_result_of
           (order_market (client env) (normalize_symbol env s) side quantity)
           (normalize_symbol env s) side quantity)).
Proof.
  unfold place_order. rewrite bind_emit, bind_ret_l.
  change ("MARKET" =? "MARKET") with true. cbv iota.
  unfold client_order_market. rewrite bind_emit.
  unfold lift, trace, result, fst, snd.
  rewrite order_result_tail. reflexivity.
Qed.

(** A limit order with a price that counts as true. *)
Lemma place_order_limit (s : string) (side quantity price : value) :
  truthy price = true ->
  place_order env (VStr s) side quantity "LIMIT" price
  = ([EvPlaceOrder (VStr s) side quantity "LIMIT" price;
      EvOrderLimit (normalize_symbol env s) side "GTC" quantity price],
     Ok (order_result_of
           (order_limit (client env) (normalize_symbol env s) side "GTC"
              quantity price)
           (normalize_symbol env s) side quantity)).
Proof.
  intros Hp. unfold place_order. rewrite bind_emit, bind_ret_l.
  change ("LIMIT" =? "MARKET") with false.
  change ("LIMIT" =? "LIMIT") with true. rewrite Hp. cbv iota. simpl andb.
  cbv iota. unfold client_order_limit. rewrite bind_emit.
  unfold lift, trace, result, fst, snd.
  rewrite order_result_tail. reflexivity.
Qed.

(** Any other order type, and a limit order without a price, reach no
    exchange call. *)
Lemma place_order_invalid (s : string) (side quantity price : value)
  (order_type : string) :
  (order_type =? "MARKET") = false ->
  (order_type =? "LIMIT") && truthy price = false ->
  place_order env (VStr s) side quantity order_type price
  = ([EvPlaceOrder (VStr s) side quantity order_type price],
     Ok (order_failure
           (Exn "ValueError" ("Invalid order type: " ++ order_type)))).
Proof.
  intros Hm Hl. unfold place_order. rewrite bind_emit, bind_ret_l.
  rewrite Hm, Hl. reflexivity.
Qed.

Lemma after_check_passed (raw_data : string) :
  after_check env raw_data false = handled env raw_data.
Proof.
  unfold after_check, handled.
  rewrite parse_tradingview_alert_eq. unfold alert_of.
  destruct (alert_fields env (VStr raw_data)) as [[[[[s signal] side] q] price]|];
    [|reflexivity].
  rewrite bind_cons. change ([], Ok ?a) with (ret a). rewrite bind_ret_l.
  unfold alert_dict. cbn [truthy negb].
  unfold py_getitem, py_get.
  change (dict_lookup _ "symbol") with (Some (VStr s)).
  change (dict_lookup _ "side") with (Some side).
  change (dict_lookup _ "quantity") with (Some (VFloat q)).
  change (dict_lookup _ "price") with (Some price).
  cbv beta iota.
  rewrite !bind_lift_ok. unfold default_order_type.
  rewrite place_order_market.
  destruct (order_market (client env) (normalize_symbol env s) side (VFloat q))
    as [[| | | | | |d]|e]; reflexivity.
Qed.

(** The handler, case by case on the signature header. *)
Lemma webhook_eq (request : Request) :
  webhook env request
  = let raw_data := get_data request in
    match x_tradingview_signature request with
    | None => handled env raw_data
    | Some signature =>
        if signature =? "" then handled env raw_data
        else if negb (Str.isascii signature) then
          ([EvVerify raw_data signature],
           Ok (server_error
                 (Exn "TypeError"
                    "comparing strings with non-ASCII characters is not supported")))
        else if computed_signature env raw_data =? signature then
          (EvVerify raw_data signature :: trace (handled env raw_data),
           result (handled env raw_data))
        else ([EvVerify raw_data signature], Ok invalid_signature)
    end.
Proof.
  destruct request as [raw_data header].
  change (webhook env {| get_data := raw_data; x_tradingview_signature := header |})
    with (try_except
            (invalid <- (if truthy (VStr match header with
                                          | Some s => s
                                          | None => ""
                                          end)
                         then ok <- verify_webhook_signature env raw_data
                                      match header with
                                      | Some s => s
                                      | None => ""
                                      end ;;
                              ret (negb ok)
                         else ret false) ;;
             after_check env raw_data invalid)
            on_exception).
  cbn [get_data x_tradingview_signature].
  assert (Hskip : try_except (invalid <- ret false ;; after_check env raw_data invalid)
                    on_exception = handled env raw_data).
  { rewrite bind_ret_l, after_check_passed. unfold handled.
    destruct (alert_fields env (VStr raw_data)) as [[[[[s signal] side] q] price]|];
      reflexivity. }
  destruct header as [signature|]; [|exact Hskip].
  cbn [truthy]. destruct (signature =? "") eqn:Hempty; [exact Hskip|].
  cbn [negb]. destruct (Str.isascii signature) eqn:Hascii; cbn [negb].
  - destruct (computed_signature env raw_data =? signature) eqn:Heq.
    + apply String.eqb_eq in Heq. subst signature.
      rewrite verify_valid. rewrite !bind_cons.
      change (@pair (list event) (outcome bool) [] (Ok true)) with (ret true).
      rewrite bind_ret_l, try_except_cons.
      change (trace (ret (negb true)), result (ret (negb true)))
        with (@ret bool false).
      rewrite !surjective_M, Hskip. reflexivity.
    + apply String.eqb_neq in Heq.
      rewrite verify_mismatch by congruence. reflexivity.
  - rewrite verify_non_ascii by assumption. reflexivity.
Qed.

End Facts.

(** ** The handler behind the signature check *)

Section Handler.

Variable env : Env.

(** After the check the handler answers 400 or 200, and what it emits
    starts with the call of the parser. *)
Lemma handled_shape (raw_data : string) :
  exists t response,
    handled env raw_data = (EvParse (VStr raw_data) :: t, Ok response) /\
    (status_code response = 400%Z \/ status_code response = 200%Z) /\
    forallb (fun ev => negb (is_verify ev)) t = true.
Proof.
  unfold handled.
  destruct (alert_fields env (VStr raw_data)) as [[[[[s signal] side] q] price]|].
  - eexists; eexists; split; [reflexivity|]. split; [|reflexivity].
    unfold response_of.
    destruct (order_market (client env) (normalize_symbol env s) side (VFloat q))
      as [[| | | | | |d]|e]; cbn; auto.
  - eexists; eexists; split; [reflexivity|]. split; [left|]; reflexivity.
Qed.

(** A request that passes the check is handled, after the event of the
    check if there was one. *)
Lemma webhook_passes (request : Request) :
  passes_check env request = true ->
  result (webhook env request) = result (handled env (get_data request)) /\
  exists before,
    trace (webhook env request)
    = (before ++ trace (handled env (get_data request)))%list /\
    forallb is_verify before = true.
Proof.
  unfold passes_check. rewrite webhook_eq. cbv zeta.
  destruct (x_tradingview_signature request) as [signature|].
  - destruct (signature =? "") eqn:Hempty.
    + intros _. split; [reflexivity|]. exists []. split; reflexivity.
    + cbn [orb]. intros Heq. rewrite Heq.
      apply String.eqb_eq in Heq. rewrite <- Heq.
      rewrite computed_signature_ascii. cbn [negb].
      split; [reflexivity|].
      exists [EvVerify (get_data request) (computed_signature env (get_data request))].
      split; reflexivity.
  - intros _. split; [reflexivity|]. exists []. split; reflexivity.
Qed.

(** What the parser returns tells which fields it read. *)
Lemma alert_fields_of_result (data : value) (s : string) (signal side : value)
  (q : float) (price : value) :
  result (parse_tradingview_alert env data)
  = Ok (alert_dict env s signal side q price) ->
  alert_fields env data = Some (s, signal, side, q, price).
Proof.
  rewrite parse_tradingview_alert_eq. unfold result, snd, alert_of.
  destruct (alert_fields env data) as [[[[[s' signal'] side'] q'] price']|].
  - unfold alert_dict. intros H. injection H as -> -> -> -> ->. reflexivity.
  - discriminate.
Qed.

(** Without a signature header the handler does what it does behind the
    check. *)
Lemma webhook_unsigned (body : string) :
  exists t response,
    webhook env {| get_data := body; x_tradingview_signature := None |}
    = (EvParse (VStr body) :: t, Ok response) /\
    (status_code response = 400%Z \/ status_code response = 200%Z) /\
    forallb (fun ev => negb (is_verify ev)) t = true.
Proof. rewrite webhook_eq. apply handled_shape. Qed.

(** With the computed signature the check comes first and lets the
    request through. *)
Lemma webhook_signed (body : string) :
  webhook env {| get_data := body;
                 x_tradingview_signature := Some (computed_signature env body) |}
  = (EvVerify body (computed_signature env body)
       :: trace (webhook env {| get_data := body;
                                x_tradingview_signature := None |}),
     result (webhook env {| get_data := body; x_tradingview_signature := None |})).
Proof.
  rewrite !webhook_eq. cbn [get_data x_tradingview_signature].
  rewrite (eqb_empty_false _ (computed_signature_not_empty env body)).
  rewrite computed_signature_ascii, String.eqb_refl. reflexivity.
Qed.

(** Lines 55 and 56, read as a function of the symbol. *)
Lemma normalize_symbol_eq (s : string) :
  normalize_symbol env s
  = if Str.endswith s "USDT" then s
    else Str.upper (unicode_upper env) s ++ "USDT".
Proof.
  unfold normalize_symbol. destruct (Str.endswith s "USDT"); reflexivity.
Qed.

(** A request that does not pass the check is answered after the check
    alone, with 401 or 500. *)
Lemma webhook_rejected_or_passes (request : Request) :
  passes_check env request = true \/
  exists signature response,
    webhook env request
    = ([EvVerify (get_data request) signature], Ok response) /\
    (status_code response = 401%Z \/ status_code response = 500%Z).
Proof.
  unfold passes_check. rewrite webhook_eq. cbv zeta.
  destruct (x_tradingview_signature request) as [signature|]; [|left; reflexivity].
  destruct (signature =? ""); [left; reflexivity|]. cbn [orb].
  destruct (computed_signature env (get_data request) =? signature) eqn:Heq;
    [left; reflexivity|].
  right. exists signature.
  destruct (negb (Str.isascii signature)); eexists; split;
    try reflexivity; cbn; auto.
Qed.

(** The parser is called only behind the check, and on the body. *)
Lemma webhook_parse_event (request : Request) (data : value) :
  In (EvParse data) (trace (webhook env request)) ->
  passes_check env request = true /\ data = VStr (get_data request).
Proof.
  intros Hin.
  destruct (webhook_rejected_or_passes request)
    as [Hpass|(signature & response & Hw & _)].
  - split; [exact Hpass|].
    destruct (webhook_passes request Hpass) as (_ & before & Htrace & Hbefore).
    rewrite Htrace in Hin. apply in_app_or in Hin. destruct Hin as [Hin|Hin].
    + rewrite forallb_forall in Hbefore. apply Hbefore in Hin. discriminate.
    + destruct (handled_shape (get_data request)) as (t & r & Hh & _ & _).
      unfold handled in Hin.
      destruct (alert_fields env (VStr (get_data request)))
        as [[[[[s signal] side] q] price]|]; cbn in Hin;
        intuition congruence.
  - rewrite Hw in Hin. destruct Hin as [Hin|[]]. discriminate.
Qed.

(** When the handler has called the exchange for a market order, its
    response is made from the answer to that call. *)
Lemma webhook_order_event (request : Request) (symbol : string)
  (side quantity : value) :
  In (EvOrderMarket symbol side quantity) (trace (webhook env request)) ->
  result (webhook env request)
  = Ok (response_of (order_market (client env) symbol side quantity)
          symbol side quantity).
Proof.
  intros Hin.
  destruct (webhook_rejected_or_passes request)
    as [Hpass|(signature & response & Hw & _)].
  - destruct (webhook_passes request Hpass) as (Hres & before & Htrace & Hbefore).
    rewrite Hres. rewrite Htrace in Hin.
    apply in_app_or in Hin. destruct Hin as [Hin|Hin].
    + rewrite forallb_forall in Hbefore. apply Hbefore in Hin. discriminate.
    + unfold handled in *.
      destruct (alert_fields env (VStr (get_data request)))
        as [[[[[s signal] side'] q] price]|]; cbn in Hin.
      * destruct Hin as [Hin|[Hin|[Hin|[]]]]; try discriminate.
        injection Hin as <- <- <-. reflexivity.
      * destruct Hin as [Hin|[]]. discriminate.
  - rewrite Hw in Hin. destruct Hin as [Hin|[]]. discriminate.
Qed.

End Handler.

(** ** The claims *)

(** C1.  A request without the signature header is not verified at all:
    no call of [verify_webhook_signature] is made, the handler goes
    straight to the parser, it never answers 401, and its answer is the
    one it gives to the same body sent with the right signature. *)
Theorem webhook_without_signature_header (env : Env) (body : string) :
  let unsigned := {| get_data := body; x_tradingview_signature := None |} in
  let signed := {| get_data := body;
                   x_tradingview_signature := Some (computed_signature env body) |} in
  (forall d s, ~ In (EvVerify d s) (trace (webhook env unsigned))) /\
  (exists t, trace (webhook env unsigned) = EvParse (VStr body) :: t) /\
  (exists response,
      result (webhook env unsigned) = Ok response /\
      status_code response <> 401%Z) /\
  result (webhook env unsigned) = result (webhook env signed) /\
  trace (webhook env signed)
  = EvVerify body (computed_signature env body) :: trace (webhook env unsigned).
Proof.
  cbv zeta.
  destruct (webhook_unsigned env body) as (t & response & Hu & Hstatus & Hnv).
  rewrite (webhook_signed env body), Hu. unfold trace, result, fst, snd.
  repeat split.
  - intros d s [H|H]; [discriminate|].
    rewrite forallb_forall in Hnv. apply Hnv in H. discriminate.
  - exists t. reflexivity.
  - exists response. split; [reflexivity|].
    destruct Hstatus as [-> | ->]; discriminate.
Qed.

(** A signature of ASCII text that is not the computed one is answered
    with 401, and nothing but the check has happened. *)
Lemma webhook_wrong_signature (env : Env) (body signature : string) :
  signature <> "" ->
  Str.isascii signature = true ->
  signature <> computed_signature env body ->
  webhook env {| get_data := body; x_tradingview_signature := Some signature |}
  = ([EvVerify body signature],
     Ok {| json := VDict [("error", VStr "Invalid signature")];
           status_code := 401 |}).
Proof.
  intros Hne Hascii Hwrong. rewrite webhook_eq.
  cbn [get_data x_tradingview_signature].
  rewrite (eqb_empty_false _ Hne), Hascii. cbn [negb].
  replace (computed_signature env body =? signature) with false; [reflexivity|].
  symmetry. apply String.eqb_neq. congruence.
Qed.

(** C2, at a signature that is not ASCII text.  The header value is not
    empty and is not the signature of the body, and the handler answers
    500 with the text of the [TypeError] that [compare_digest] raises,
    where the claim has 401.  Neither the parser nor the order submitter
    has been called. *)
Theorem webhook_non_ascii_signature (env : Env) (body : string) :
  non_ascii_signature <> "" /\
  non_ascii_signature <> computed_signature env body /\
  webhook env {| get_data := body;
                 x_tradingview_signature := Some non_ascii_signature |}
  = ([EvVerify body non_ascii_signature],
     Ok {| json :=
             VDict [("error",
                     VStr "comparing strings with non-ASCII characters is not supported")];
           status_code := 500 |}).
Proof.
  split; [discriminate|]. split.
  - intros H. pose proof (computed_signature_ascii env body) as Ha.
    rewrite <- H in Ha. discriminate.
  - rewrite webhook_eq. reflexivity.
Qed.

(** C3, as stated, at an exception whose text is empty.  The exchange
    call of the sample alert raises; the handler answers 400 with status
    [error], but the error text it sends is the empty text of the
    exception. *)
Lemma exchange_exception_with_empty_text :
  order_market (client (sample_env (Raise (Exn "Exception" ""))))
    "BTCUSDT" (VStr "BUY") (VFloat 0.01)
  = Raise (Exn "Exception" "") /\
  webhook (sample_env (Raise (Exn "Exception" "")))
    {| get_data := btc_alert; x_tradingview_signature := None |}
  = ([EvParse (VStr btc_alert);
      EvPlaceOrder (VStr "BTC") (VStr "BUY") (VFloat 0.01) "MARKET" VNone;
      EvOrderMarket "BTCUSDT" (VStr "BUY") (VFloat 0.01)],
     Ok {| json := VDict [("status", VStr "error");
                          ("message", VStr "Failed to place order");
                          ("error", VStr "")];
           status_code := 400 |}) /\
  ~ has_error_text
      {| json := VDict [("status", VStr "error");
                        ("message", VStr "Failed to place order");
                        ("error", VStr "")];
         status_code := 400 |}.
Proof.
  split; [reflexivity|]. split; [vm_compute; reflexivity|].
  intros (msg & Hget & Hne). cbn in Hget. injection Hget as <-. congruence.
Qed.

(** C3, amended.  When the call to the exchange client raises,
    [place_order] returns the failure result with the text of the
    exception and raises nothing itself, for a market order and for a
    limit order alike; and when the call the handler makes to the
    exchange raises, the handler answers 400 with status [error] and with
    that same text, which is empty only when the text of the exception
    is. *)
Theorem exchange_exception_becomes_failure (env : Env) (e : exn) :
  (forall s side quantity price,
      order_market (client env) (normalize_symbol env s) side quantity = Raise e ->
      place_order env (VStr s) side quantity "MARKET" price
      = ([EvPlaceOrder (VStr s) side quantity "MARKET" price;
          EvOrderMarket (normalize_symbol env s) side quantity],
         Ok (VDict [("success", VBool false); ("error", VStr (exn_str e))]))) /\
  (forall s side quantity price,
      truthy price = true ->
      order_limit (client env) (normalize_symbol env s) side "GTC" quantity price
      = Raise e ->
      place_order env (VStr s) side quantity "LIMIT" price
      = ([EvPlaceOrder (VStr s) side quantity "LIMIT" price;
          EvOrderLimit (normalize_symbol env s) side "GTC" quantity price],
         Ok (VDict [("success", VBool false); ("error", VStr (exn_str e))]))) /\
  (forall request symbol side quantity,
      In (EvOrderMarket symbol side quantity) (trace (webhook env request)) ->
      order_market (client env) symbol side quantity = Raise e ->
      result (webhook env request)
      = Ok {| json := VDict [("status", VStr "error");
                             ("message", VStr "Failed to place order");
                             ("error", VStr (exn_str e))];
              status_code := 400 |} /\
      (has_error_text
         {| json := VDict [("status", VStr "error");
                           ("message", VStr "Failed to place order");
                           ("error", VStr (exn_str e))];
            status_code := 400 |}
       <-> exn_str e <> "")).
Proof.
  split; [|split].
  - intros s side quantity price Hraise.
    rewrite place_order_market, Hraise. reflexivity.
  - intros s side quantity price Hprice Hraise.
    rewrite place_order_limit by assumption. rewrite Hraise. reflexivity.
  - intros request symbol side quantity Hin Hraise. split.
    + rewrite (webhook_order_event env request symbol side quantity Hin).
      rewrite Hraise. reflexivity.
    + unfold has_error_text. cbn. split.
      * intros (msg & Hget & Hne). injection Hget as <-. exact Hne.
      * intros Hne. exists (exn_str e). split; [reflexivity|exact Hne].
Qed.

Lemma exchange_exception_becomes_failure_witness :
  result (place_order (sample_env (Raise insufficient_balance))
            (VStr "BTC") (VStr "BUY") (VFloat 0.01) "MARKET" VNone)
  = Ok (VDict [("success", VBool false);
               ("error", VStr "APIError(code=-2010): insufficient balance")]) /\
  result (place_order (sample_env (Raise insufficient_balance))
            (VStr "BTC") (VStr "BUY") (VFloat 0.01) "LIMIT" (VFloat 65000))
  = Ok (VDict [("success", VBool false);
               ("error", VStr "APIError(code=-2010): insufficient balance")]) /\
  result (webhook (sample_env (Raise insufficient_balance))
            {| get_data := btc_alert; x_tradingview_signature := None |})
  = Ok {| json := VDict [("status", VStr "error");
                         ("message", VStr "Failed to place order");
                         ("error",
                          VStr "APIError(code=-2010): insufficient balance")];
          status_code := 400 |}.
Proof.
  pose proof (exchange_exception_becomes_failure
                (sample_env (Raise insufficient_balance)) insufficient_balance)
    as (Hmarket & Hlimit & Hhook).
  split; [|split].
  - rewrite (Hmarket "BTC" (VStr "BUY") (VFloat 0.01) VNone eq_refl).
    reflexivity.
  - rewrite (Hlimit "BTC" (VStr "BUY") (VFloat 0.01) (VFloat 65000)
               eq_refl eq_refl).
    reflexivity.
  - refine (proj1 (Hhook {| get_data := btc_alert; x_tradingview_signature := None |}
                     "BTCUSDT" (VStr "BUY") (VFloat 0.01) _ _)).
    + vm_compute. right. right. left. reflexivity.
    + reflexivity.
Defined.

(** C4, as stated, at a body that is not JSON sent with a wrong
    signature: the handler answers 401, not 400. *)
Lemma malformed_body_with_wrong_signature :
  Json.decode "not json" = None /\
  webhook (sample_env filled)
    {| get_data := "not json"; x_tradingview_signature := Some "00" |}
  = ([EvVerify "not json" "00"],
     Ok {| json := VDict [("error", VStr "Invalid signature")];
           status_code := 401 |}).
Proof. split; vm_compute; reflexivity. Qed.

(** C4, amended.  For a body that [json.loads] does not decode, and for
    a body that decodes to an object whose [quantity] does not go through
    [float], the parser returns [None] and raises nothing; and when the
    request passes the signature check (no signature, an empty one or the
    right one) the handler answers 400 with the error body and calls
    neither the order submitter nor the exchange. *)
Theorem malformed_alert_is_rejected (env : Env) (body : string) :
  ((exists e, json_loads body = Raise e) \/
   (exists d q e,
       json_loads body = Ok (VDict d) /\
       dict_lookup d "quantity" = Some q /\
       py_float (unicode_float env) q = Raise e)) ->
  parse_tradingview_alert env (VStr body) = ([EvParse (VStr body)], Ok VNone) /\
  (forall header,
      passes_check env {| get_data := body; x_tradingview_signature := header |}
      = true ->
      result (webhook env {| get_data := body; x_tradingview_signature := header |})
      = Ok {| json := VDict [("error", VStr "Invalid alert data")];
              status_code := 400 |} /\
      forall ev,
        In ev (trace (webhook env {| get_data := body;
                                     x_tradingview_signature := header |})) ->
        ev = EvParse (VStr body) \/ is_verify ev = true).
Proof.
  intros Hbad.
  assert (Hnone : alert_fields env (VStr body) = None).
  { unfold alert_fields, decoded.
    destruct Hbad as [[e He]|(d & q & e & Hd & Hq & Hf)].
    - rewrite He. reflexivity.
    - rewrite Hd. unfold field at 2. rewrite Hq, Hf.
      destruct (field d "symbol" (VStr "")); reflexivity. }
  split.
  - rewrite parse_tradingview_alert_eq. unfold alert_of. rewrite Hnone.
    reflexivity.
  - intros header Hpass.
    destruct (webhook_passes env _ Hpass) as (Hres & before & Htrace & Hbefore).
    cbn [get_data] in Hres, Htrace. rewrite Hres, Htrace.
    unfold handled. rewrite Hnone. split; [reflexivity|].
    intros ev Hin. apply in_app_or in Hin. destruct Hin as [Hin|[Hin|[]]].
    + right. rewrite forallb_forall in Hbefore. exact (Hbefore ev Hin).
    + left. symmetry. exact Hin.
Qed.

Lemma malformed_alert_is_rejected_witness :
  (parse_tradingview_alert (sample_env filled) (VStr "not json")
   = ([EvParse (VStr "not json")], Ok VNone) /\
   result (webhook (sample_env filled)
             {| get_data := "not json"; x_tradingview_signature := None |})
   = Ok {| json := VDict [("error", VStr "Invalid alert data")];
           status_code := 400 |}) /\
  (parse_tradingview_alert (sample_env filled) (VStr bad_quantity_alert)
   = ([EvParse (VStr bad_quantity_alert)], Ok VNone) /\
   result (webhook (sample_env filled)
             {| get_data := bad_quantity_alert; x_tradingview_signature := Some "" |})
   = Ok {| json := VDict [("error", VStr "Invalid alert data")];
           status_code := 400 |}).
Proof.
  split.
  - destruct (malformed_alert_is_rejected (sample_env filled) "not json")
      as [Hparse Hhook].
    + left. exists (Exn "JSONDecodeError" "Expecting value").
      vm_compute. reflexivity.
    + split; [exact Hparse|exact (proj1 (Hhook None eq_refl))].
  - destruct (malformed_alert_is_rejected (sample_env filled) bad_quantity_alert)
      as [Hparse Hhook].
    + right.
      exists [("symbol", VStr "BTC"); ("quantity", VStr "lots")], (VStr "lots"),
        (Exn "ValueError" "could not convert string to float").
      split; [vm_compute; reflexivity|]. split; reflexivity.
    + split; [exact Hparse|exact (proj1 (Hhook (Some "") eq_refl))].
Defined.

(** C5.  The handler only ever asks for market orders.  Whatever the
    request, no limit order is sent and every call of [place_order] has
    order type MARKET; the price of the alert does not change what a
    market order sends or returns; and when the handler has called the
    parser and the parser returns an alert, what the handler does from
    there is the call of [place_order] with MARKET and one market order
    for the normalized symbol, the side and the quantity of the alert,
    in which the price does not appear. *)
Theorem webhook_submits_market_orders (env : Env) (request : Request) :
  (forall ev,
      In ev (trace (webhook env request)) ->
      match ev with
      | EvOrderLimit _ _ _ _ _ => False
      | EvPlaceOrder _ _ _ order_type _ => order_type = "MARKET"
      | _ => True
      end) /\
  (forall symbol side quantity price price',
      result (place_order env symbol side quantity "MARKET" price)
      = result (place_order env symbol side quantity "MARKET" price') /\
      filter is_exchange_call
        (trace (place_order env symbol side quantity "MARKET" price))
      = filter is_exchange_call
          (trace (place_order env symbol side quantity "MARKET" price'))) /\
  (forall data s signal side q price,
      In (EvParse data) (trace (webhook env request)) ->
      result (parse_tradingview_alert env data)
      = Ok (alert_dict env s signal side q price) ->
      exists before,
        forallb is_verify before = true /\
        trace (webhook env request)
        = (before ++
           [EvParse data;
            EvPlaceOrder (VStr s) side (VFloat q) "MARKET" price;
            EvOrderMarket (normalize_symbol env s) side (VFloat q)])%list).
Proof.
  split; [|split].
  - rewrite webhook_eq. cbv zeta.
    assert (Hh : forall ev,
               In ev (trace (handled env (get_data request))) ->
               match ev with
               | EvOrderLimit _ _ _ _ _ => False
               | EvPlaceOrder _ _ _ order_type _ => order_type = "MARKET"
               | _ => True
               end).
    { unfold handled.
      destruct (alert_fields env (VStr (get_data request)))
        as [[[[[s signal] side] q] price]|]; cbn;
        intros ev Hin; intuition (subst; auto). }
    destruct (x_tradingview_signature request) as [signature|]; [|exact Hh].
    destruct (signature =? ""); [exact Hh|].
    destruct (negb (Str.isascii signature)).
    { cbn. intros ev [<-|[]]. exact I. }
    destruct (computed_signature env (get_data request) =? signature).
    + cbn [trace fst]. intros ev [<-|Hin]; [exact I|]. apply Hh. exact Hin.
    + cbn. intros ev [<-|[]]. exact I.
  - intros symbol side quantity price price'.
    destruct symbol; try (split; reflexivity).
    rewrite !place_order_market. split; reflexivity.
  - intros data s signal side q price Hin Hparse.
    destruct (webhook_parse_event env request data Hin) as [Hpass ->].
    destruct (webhook_passes env request Hpass) as (_ & before & Htrace & Hbefore).
    exists before. split; [exact Hbefore|].
    rewrite Htrace. unfold handled.
    rewrite (alert_fields_of_result env _ _ _ _ _ _ Hparse). reflexivity.
Qed.

Lemma webhook_submits_market_orders_witness :
  (exists before,
      forallb is_verify before = true /\
      trace (webhook (sample_env filled)
               {| get_data := priced_alert; x_tradingview_signature := None |})
      = (before ++
         [EvParse (VStr priced_alert);
          EvPlaceOrder (VStr "BTC") (VStr "BUY") (VFloat 0.01) "MARKET" (VInt 65000);
          EvOrderMarket
            (normalize_symbol (sample_env filled) "BTC") (VStr "BUY") (VFloat 0.01)])%list) /\
  "MARKET" = "MARKET".
Proof.
  pose proof (webhook_submits_market_orders (sample_env filled)
                {| get_data := priced_alert; x_tradingview_signature := None |})
    as (Hall & _ & Hparsed).
  split.
  - refine (Hparsed (VStr priced_alert) "BTC" (VStr "BUY") (VStr "BUY")
              0.01%float (VInt 65000) _ _).
    + vm_compute. left. reflexivity.
    + vm_compute. reflexivity.
  - refine (Hall (EvPlaceOrder (VStr "BTC") (VStr "BUY") (VFloat 0.01) "MARKET"
                    (VInt 65000)) _).
    vm_compute. right. left. reflexivity.
Defined.

(** C6, as stated, at a symbol that has the marker inside it and not at
    its head: the parser does not leave it unchanged. *)
Lemma marker_inside_symbol_is_removed :
  Str.startswith "XBINANCE:BTC" "BINANCE:" = false /\
  result (parse_tradingview_alert (sample_env filled)
            (VStr (dq "{'symbol':'XBINANCE:BTC'}")))
  = Ok (alert_dict (sample_env filled) "XBTC" (VStr "BUY") (VStr "BUY")
          0.001 VNone) /\
  "XBTC" <> "XBINANCE:BTC".
Proof.
  split; [reflexivity|]. split; [vm_compute; reflexivity|discriminate].
Qed.

(** C6, amended.  The symbol of the alert is the symbol of the payload
    with every occurrence of the marker [BINANCE:] taken out, as
    [str.replace] does: a symbol made of parts that do not hold the
    marker, with the marker before the second and every later part,
    comes out as the parts alone, however many they are, and every
    symbol is made of such parts.  So a marker at the head of a symbol
    that has no other is stripped, and a symbol without the marker is
    left unchanged; and the sample payload parses to [ETHUSDT]. *)
Theorem parser_removes_exchange_marker (env : Env) :
  (forall data d s q,
      decoded data = Ok (VDict d) ->
      dict_lookup d "symbol" = Some (VStr s) ->
      py_float (unicode_float env) (field d "quantity" (VFloat 0.001)) = Ok q ->
      parse_tradingview_alert env data
      = ([EvParse data],
         Ok (alert_dict env (Str.replace s "BINANCE:" "")
               (field d "signal" (VStr "BUY")) (field d "side" (VStr "BUY"))
               q (field d "price" VNone)))) /\
  (forall head parts,
      Str.contains head "BINANCE:" = false ->
      forallb (fun p => negb (Str.contains p "BINANCE:")) parts = true ->
      Str.replace (head ++ with_marker parts) "BINANCE:" ""
      = head ++ without_marker parts) /\
  (forall s,
      exists head parts,
        s = head ++ with_marker parts /\
        Str.contains head "BINANCE:" = false /\
        forallb (fun p => negb (Str.contains p "BINANCE:")) parts = true /\
        Str.replace s "BINANCE:" "" = head ++ without_marker parts) /\
  (forall t,
      Str.contains t "BINANCE:" = false ->
      Str.replace ("BINANCE:" ++ t) "BINANCE:" "" = t) /\
  (forall s,
      Str.contains s "BINANCE:" = false ->
      Str.replace s "BINANCE:" "" = s) /\
  parse_tradingview_alert env (VStr eth_alert)
  = ([EvParse (VStr eth_alert)],
     Ok (alert_dict env "ETHUSDT" (VStr "BUY") (VStr "SELL") 0.5 VNone)).
Proof.
  split; [|split; [|split; [|split; [|split]]]].
  - intros data d s q Hd Hs Hq.
    rewrite parse_tradingview_alert_eq. unfold alert_of, alert_fields.
    rewrite Hd. unfold field at 1. rewrite Hs, Hq. reflexivity.
  - intros head parts Hhead Hparts.
    apply replace_all_markers; assumption.
  - intros s. destruct (marker_parts s) as (head & parts & Hs & Hhead & Hparts).
    exists head, parts. split; [exact Hs|]. split; [exact Hhead|].
    split; [exact Hparts|]. subst s.
    apply replace_all_markers; assumption.
  - intros t Ht. rewrite replace_prefix.
    apply replace_absent; [discriminate|exact Ht].
  - intros s Hs. apply replace_absent; [discriminate|exact Hs].
  - rewrite parse_tradingview_alert_eq. vm_compute. reflexivity.
Qed.

Lemma parser_removes_exchange_marker_witness :
  parse_tradingview_alert (sample_env filled)
    (VDict [("symbol", VStr "BINANCE:BTCUSDT"); ("quantity", VInt 2)])
  = ([EvParse (VDict [("symbol", VStr "BINANCE:BTCUSDT"); ("quantity", VInt 2)])],
     Ok (alert_dict (sample_env filled)
           (Str.replace "BINANCE:BTCUSDT" "BINANCE:" "")
           (VStr "BUY") (VStr "BUY") 2 VNone)) /\
  Str.replace "aBINANCE:bBINANCE:c" "BINANCE:" "" = "abc" /\
  Str.replace ("BINANCE:" ++ "BTCUSDT") "BINANCE:" "" = "BTCUSDT" /\
  Str.replace "BTCUSDT" "BINANCE:" "" = "BTCUSDT".
Proof.
  pose proof (parser_removes_exchange_marker (sample_env filled))
    as (Hparse & Hall & _ & Hhead & Hnone & _).
  split; [|split; [|split]].
  - refine (Hparse (VDict [("symbol", VStr "BINANCE:BTCUSDT"); ("quantity", VInt 2)])
              [("symbol", VStr "BINANCE:BTCUSDT"); ("quantity", VInt 2)]
              "BINANCE:BTCUSDT" 2%float _ _ _).
    + reflexivity.
    + reflexivity.
    + vm_compute. reflexivity.
  - refine (Hall "a" ["b"; "c"] _ _).
    + reflexivity.
    + reflexivity.
  - refine (Hhead "BTCUSDT" _). reflexivity.
  - refine (Hnone "BTCUSDT" _). reflexivity.
Defined.

(** Small letters go to their capitals and every other character stays. *)
Lemma upper_char_code (c : ascii) :
  Str.code (Str.upper_char c)
  = if ((97 <=? Str.code c) && (Str.code c <=? 122))%Z
    then (Str.code c - 32)%Z else Str.code c.
Proof. destruct c as [[] [] [] [] [] [] [] []]; reflexivity. Qed.

(** C7.  [place_order] sends to the exchange the symbol it was given when
    that ends with [USDT], and otherwise the symbol in upper case with
    [USDT] put after it, for market orders and for the limit orders it
    sends (those with a price that counts as true); and for the
    sample alert the handler asks for one market order for [BTCUSDT],
    side BUY, quantity 0.01.  Upper case means, for a symbol of ASCII
    text, that each small letter is replaced by its capital and nothing
    else changes: [btc] goes out as [BTCUSDT], and an alert for [eth] as
    an order for [ETHUSDT]. *)
Theorem place_order_normalizes_symbol (env : Env) :
  (forall s side quantity price,
      trace (place_order env (VStr s) side quantity "MARKET" price)
      = [EvPlaceOrder (VStr s) side quantity "MARKET" price;
         EvOrderMarket
           (if Str.endswith s "USDT" then s
            else Str.upper (unicode_upper env) s ++ "USDT")
           side quantity]) /\
  (forall s side quantity price,
      trace (place_order env (VStr s) side quantity "LIMIT" price)
      = EvPlaceOrder (VStr s) side quantity "LIMIT" price
        :: if truthy price
           then [EvOrderLimit
                   (if Str.endswith s "USDT" then s
                    else Str.upper (unicode_upper env) s ++ "USDT")
                   side "GTC" quantity price]
           else []) /\
  trace (webhook env {| get_data := btc_alert; x_tradingview_signature := None |})
  = [EvParse (VStr btc_alert);
     EvPlaceOrder (VStr "BTC") (VStr "BUY") (VFloat 0.01) "MARKET" VNone;
     EvOrderMarket "BTCUSDT" (VStr "BUY") (VFloat 0.01)] /\
  (forall s side quantity price,
      Str.isascii s = true ->
      Str.endswith s "USDT" = false ->
      trace (place_order env (VStr s) side quantity "MARKET" price)
      = [EvPlaceOrder (VStr s) side quantity "MARKET" price;
         EvOrderMarket (Str.map_chars Str.upper_char s ++ "USDT") side quantity]) /\
  (forall c,
      Str.code (Str.upper_char c)
      = if ((97 <=? Str.code c) && (Str.code c <=? 122))%Z
        then (Str.code c - 32)%Z else Str.code c) /\
  trace (place_order env (VStr "btc") (VStr "BUY") (VFloat 0.01) "MARKET" VNone)
  = [EvPlaceOrder (VStr "btc") (VStr "BUY") (VFloat 0.01) "MARKET" VNone;
     EvOrderMarket "BTCUSDT" (VStr "BUY") (VFloat 0.01)] /\
  trace (webhook env {| get_data := lower_case_alert;
                        x_tradingview_signature := None |})
  = [EvParse (VStr lower_case_alert);
     EvPlaceOrder (VStr "eth") (VStr "SELL") (VFloat 2) "MARKET" VNone;
     EvOrderMarket "ETHUSDT" (VStr "SELL") (VFloat 2)].
Proof.
  split; [|split; [|split; [|split; [|split; [|split]]]]].
  - intros s side quantity price.
    rewrite place_order_market, normalize_symbol_eq. reflexivity.
  - intros s side quantity price. destruct (truthy price) eqn:Hp.
    + rewrite place_order_limit by assumption.
      rewrite normalize_symbol_eq. reflexivity.
    + rewrite place_order_invalid; [reflexivity|reflexivity|].
      rewrite Hp. reflexivity.
  - rewrite webhook_eq. cbn [get_data x_tradingview_signature]. cbv zeta.
    unfold handled.
    replace (alert_fields env (VStr btc_alert))
      with (Some ("BTC", VStr "BUY", VStr "BUY", 0.01%float, VNone))
      by (vm_compute; reflexivity).
    replace (normalize_symbol env "BTC") with "BTCUSDT"
      by (vm_compute; reflexivity).
    reflexivity.
  - intros s side quantity price Hascii Hends.
    rewrite place_order_market, normalize_symbol_eq, Hends.
    unfold Str.upper. rewrite Hascii. reflexivity.
  - exact upper_char_code.
  - rewrite place_order_market.
    replace (normalize_symbol env "btc") with "BTCUSDT"
      by (vm_compute; reflexivity).
    reflexivity.
  - rewrite webhook_eq. cbn [get_data x_tradingview_signature]. cbv zeta.
    unfold handled.
    replace (alert_fields env (VStr lower_case_alert))
      with (Some ("eth", VStr "BUY", VStr "SELL", 2%float, VNone))
      by (vm_compute; reflexivity).
    replace (normalize_symbol env "eth") with "ETHUSDT"
      by (vm_compute; reflexivity).
    reflexivity.
Qed.

Lemma place_order_normalizes_symbol_witness :
  trace (place_order (sample_env filled) (VStr "dogeBusd") (VStr "BUY")
           (VFloat 5) "MARKET" VNone)
  = [EvPlaceOrder (VStr "dogeBusd") (VStr "BUY") (VFloat 5) "MARKET" VNone;
     EvOrderMarket (Str.map_chars Str.upper_char "dogeBusd" ++ "USDT")
       (VStr "BUY") (VFloat 5)] /\
  Str.map_chars Str.upper_char "dogeBusd" ++ "USDT" = "DOGEBUSDUSDT".
Proof.
  split.
  - refine (proj1 (proj2 (proj2 (proj2
              (place_order_normalizes_symbol (sample_env filled)))))
              "dogeBusd" (VStr "BUY") (VFloat 5) VNone _ _).
    + reflexivity.
    + reflexivity.
  - reflexivity.
Defined.

(** C8.  For a payload that is a JSON object, every alert the parser
    returns has signal BUY where the object has no [signal], side BUY
    where it has no [side], quantity 0.001 where it has no [quantity] and
    price [None] where it has no [price]; and an object that has none of
    the four is parsed into an alert with exactly these values as soon as
    its symbol is absent or a text. *)
Theorem missing_fields_take_defaults (env : Env) (data : value) (d : dict) :
  decoded data = Ok (VDict d) ->
  (forall alert,
      result (parse_tradingview_alert env data) = Ok (VDict alert) ->
      (dict_lookup d "signal" = None ->
       dict_lookup alert "signal" = Some (VStr "BUY")) /\
      (dict_lookup d "side" = None ->
       dict_lookup alert "side" = Some (VStr "BUY")) /\
      (dict_lookup d "quantity" = None ->
       dict_lookup alert "quantity" = Some (VFloat 0.001)) /\
      (dict_lookup d "price" = None ->
       dict_lookup alert "price" = Some VNone)) /\
  (dict_lookup d "signal" = None ->
   dict_lookup d "side" = None ->
   dict_lookup d "quantity" = None ->
   dict_lookup d "price" = None ->
   forall s,
     field d "symbol" (VStr "") = VStr s ->
     parse_tradingview_alert env data
     = ([EvParse data],
        Ok (VDict [("symbol", VStr (Str.replace s "BINANCE:" ""));
                   ("signal", VStr "BUY");
                   ("side", VStr "BUY");
                   ("quantity", VFloat 0.001);
                   ("price", VNone);
                   ("timestamp", VStr (datetime_now_isoformat env))]))).
Proof.
  intros Hd. split.
  - intros alert. rewrite parse_tradingview_alert_eq.
    unfold result, snd, alert_of, alert_fields. rewrite Hd.
    destruct (field d "symbol" (VStr "")); try discriminate.
    destruct (py_float (unicode_float env) (field d "quantity" (VFloat 0.001)))
      as [q|e] eqn:Hq; [|discriminate].
    unfold alert_dict. intros H. injection H as <-.
    unfold field in *. repeat split; intros Hnone; rewrite Hnone in *;
      try reflexivity.
    change (py_float (unicode_float env) (VFloat 0.001)) with (Ok 0.001%float)
      in Hq.
    injection Hq as <-. reflexivity.
  - intros Hsignal Hside Hquantity Hprice s Hs.
    rewrite parse_tradingview_alert_eq. unfold alert_of, alert_fields.
    rewrite Hd, Hs. unfold field. rewrite Hsignal, Hside, Hquantity, Hprice.
    reflexivity.
Qed.

Lemma missing_fields_take_defaults_witness :
  parse_tradingview_alert (sample_env filled) (VStr symbol_only_alert)
  = ([EvParse (VStr symbol_only_alert)],
     Ok (VDict [("symbol", VStr (Str.replace "BINANCE:BTCUSDT" "BINANCE:" ""));
                ("signal", VStr "BUY");
                ("side", VStr "BUY");
                ("quantity", VFloat 0.001);
                ("price", VNone);
                ("timestamp", VStr (datetime_now_isoformat (sample_env filled)))])) /\
  dict_lookup
    [("symbol", VStr "ETHUSDT"); ("signal", VStr "BUY"); ("side", VStr "SELL");
     ("quantity", VFloat 0.5); ("price", VNone);
     ("timestamp", VStr (datetime_now_isoformat (sample_env filled)))]
    "price"
  = Some VNone.
Proof.
  split.
  - refine (proj2 (missing_fields_take_defaults (sample_env filled)
                     (VStr symbol_only_alert)
                     [("symbol", VStr "BINANCE:BTCUSDT")] _)
              _ _ _ _ "BINANCE:BTCUSDT" _).
    + vm_compute. reflexivity.
    + reflexivity.
    + reflexivity.
    + reflexivity.
    + reflexivity.
    + reflexivity.
  - refine (proj2 (proj2 (proj2
              (proj1 (missing_fields_take_defaults (sample_env filled)
                        (VStr eth_alert)
                        [("symbol", VStr "BINANCE:ETHUSDT"); ("side", VStr "SELL");
                         ("quantity", VFloat 0.5)] _)
                 _ _))) _).
    + vm_compute. reflexivity.
    + vm_compute. reflexivity.
    + reflexivity.
Defined.

(** C9.  The symbol normalization of [place_order] is idempotent: doing
    it twice gives what doing it once gives, for every symbol; so an
    order for a symbol already normalized goes out under that same
    symbol. *)
Theorem normalize_symbol_idempotent (env : Env) (s : string) :
  normalize_symbol env s
  = (if Str.endswith s "USDT" then s
     else Str.upper (unicode_upper env) s ++ "USDT") /\
  normalize_symbol env (normalize_symbol env s) = normalize_symbol env s /\
  forall side quantity price,
    trace (place_order env (VStr (normalize_symbol env s)) side quantity
             "MARKET" price)
    = [EvPlaceOrder (VStr (normalize_symbol env s)) side quantity "MARKET" price;
       EvOrderMarket (normalize_symbol env s) side quantity].
Proof.
  assert (Hi : normalize_symbol env (normalize_symbol env s)
               = normalize_symbol env s).
  { rewrite (normalize_symbol_eq env s).
    destruct (Str.endswith s "USDT") eqn:He.
    - rewrite normalize_symbol_eq, He. reflexivity.
    - rewrite normalize_symbol_eq, endswith_app. reflexivity. }
  split; [apply normalize_symbol_eq|]. split; [exact Hi|].
  intros side quantity price. rewrite place_order_market, Hi. reflexivity.
Qed.

(** C10.  A signature header with an empty value is handled exactly as a
    missing header, for every body: nothing is verified and the handler
    goes on to the parser, although the empty text is not the signature
    of the body. *)
Theorem empty_signature_header_is_no_header (env : Env) (body : string) :
  webhook env {| get_data := body; x_tradingview_signature := Some "" |}
  = webhook env {| get_data := body; x_tradingview_signature := None |} /\
  (forall d s,
      ~ In (EvVerify d s)
          (trace (webhook env {| get_data := body;
                                 x_tradingview_signature := Some "" |}))) /\
  (exists t,
      trace (webhook env {| get_data := body; x_tradingview_signature := Some "" |})
      = EvParse (VStr body) :: t) /\
  "" <> computed_signature env body.
Proof.
  assert (Heq : webhook env {| get_data := body; x_tradingview_signature := Some "" |}
                = webhook env {| get_data := body; x_tradingview_signature := None |})
    by reflexivity.
  rewrite Heq.
  destruct (webhook_unsigned env body) as (t & response & Hu & _ & Hnv).
  rewrite Hu. unfold trace, fst.
  repeat split.
  - intros d s [H|H]; [discriminate|].
    rewrite forallb_forall in Hnv. apply Hnv in H. discriminate.
  - exists t. reflexivity.
  - intros H. symmetry in H. exact (computed_signature_not_empty env body H).
Qed.

(** * Further properties *)

(** ** The signature *)

Lemma hex_digit_lower_hex (n : Z) : is_lower_hex (Sha256.hex_digit n) = true.
Proof.
  unfold Sha256.hex_digit. generalize (Z.to_nat n). intros k.
  do 16 (destruct k as [|k]; [reflexivity|]). destruct k; reflexivity.
Qed.

Lemma all_chars_app (p : ascii -> bool) (a b : string) :
  all_chars p (a ++ b) = all_chars p a && all_chars p b.
Proof.
  induction a as [|c a IH]; [reflexivity|].
  change (String c a ++ b) with (String c (a ++ b)).
  cbn [all_chars]. rewrite IH. apply andb_assoc.
Qed.

Lemma length_app_string (a b : string) :
  String.length (a ++ b) = (String.length a + String.length b)%nat.
Proof.
  induction a as [|c a IH]; [reflexivity|].
  change (String c a ++ b) with (String c (a ++ b)).
  cbn [String.length]. rewrite IH. reflexivity.
Qed.

Lemma hex_word_shape (x : Z) :
  String.length (Sha256.hex_word x) = 8%nat /\
  all_chars is_lower_hex (Sha256.hex_word x) = true.
Proof.
  unfold Sha256.hex_word.
  change (rev (seq 0 8)) with [7; 6; 5; 4; 3; 2; 1; 0]%nat.
  cbn [map string_of_list_ascii String.length all_chars].
  rewrite !hex_digit_lower_hex. split; reflexivity.
Qed.

(** A digest is written with 64 digits and small letters up to [f]. *)
Lemma hex_state_shape (s : Sha256.state) :
  String.length (Sha256.hex_state s) = 64%nat /\
  all_chars is_lower_hex (Sha256.hex_state s) = true.
Proof.
  unfold Sha256.hex_state. rewrite !length_app_string, !all_chars_app.
  repeat match goal with
    | |- context [Sha256.hex_word ?x] =>
        let Hl := fresh in let Hc := fresh in
        destruct (hex_word_shape x) as [Hl Hc]; rewrite Hl, Hc; clear Hl Hc
    end.
  split; reflexivity.
Qed.

(** X1.  [verify_webhook_signature] makes one comparison: for a signature
    of ASCII text it returns whether the signature is the computed one,
    letter for letter, and for any other text it raises the [TypeError]
    of [compare_digest].  So every signature it accepts has 64
    characters, all of them digits or small letters up to [f]. *)
Theorem verify_accepts_only_the_digest (env : Env) (body signature : string) :
  (Str.isascii signature = true ->
   verify_webhook_signature env body signature
   = ([EvVerify body signature],
      Ok (computed_signature env body =? signature))) /\
  (Str.isascii signature = false ->
   exists e, verify_webhook_signature env body signature
             = ([EvVerify body signature], Raise e) /\
             exn_class e = "TypeError") /\
  (result (verify_webhook_signature env body signature) = Ok true ->
   signature = computed_signature env body /\
   String.length signature = 64%nat /\
   all_chars is_lower_hex signature = true).
Proof.
  split; [|split].
  - intros Ha. destruct (computed_signature env body =? signature) eqn:Heq.
    + apply String.eqb_eq in Heq. rewrite <- Heq. apply verify_valid.
    + apply String.eqb_neq in Heq. apply verify_mismatch; congruence.
  - intros Ha. rewrite (verify_non_ascii env body signature Ha).
    eexists. split; reflexivity.
  - intros Hok.
    destruct (Str.isascii signature) eqn:Ha.
    + assert (Heq : signature = computed_signature env body).
      { destruct (computed_signature env body =? signature) eqn:Heq.
        - apply String.eqb_eq in Heq. congruence.
        - apply String.eqb_neq in Heq.
          rewrite verify_mismatch in Hok by congruence. discriminate. }
      split; [exact Heq|]. rewrite Heq. apply hex_state_shape.
    + rewrite (verify_non_ascii env body signature Ha) in Hok. discriminate.
Qed.

Lemma verify_accepts_only_the_digest_witness :
  verify_webhook_signature (sample_env filled) btc_alert "00"
  = ([EvVerify btc_alert "00"], Ok false) /\
  (exists e,
      verify_webhook_signature (sample_env filled) btc_alert non_ascii_signature
      = ([EvVerify btc_alert non_ascii_signature], Raise e) /\
      exn_class e = "TypeError") /\
  String.length
    "963ddc0b6185bd88bba9eb6a6cf5eae95ac8d38cea618a81d40f7568fb1b637d"
  = 64%nat.
Proof.
  split; [|split].
  - refine (eq_trans
              (proj1 (verify_accepts_only_the_digest (sample_env filled)
                        btc_alert "00") _) _).
    + reflexivity.
    + vm_compute. reflexivity.
  - refine (proj1 (proj2 (verify_accepts_only_the_digest (sample_env filled)
                            btc_alert non_ascii_signature)) _).
    reflexivity.
  - refine (proj1 (proj2
              (proj2 (proj2 (verify_accepts_only_the_digest (sample_env filled)
                               btc_alert
                               "963ddc0b6185bd88bba9eb6a6cf5eae95ac8d38cea618a81d40f7568fb1b637d"))
                 _))).
    vm_compute. reflexivity.
Defined.

(** ** The handler *)

(** The three ways the handler goes, by the signature header. *)
Lemma webhook_three_ways (env : Env) (request : Request) :
  (exists t r,
      webhook env request = (t, Ok r) /\
      (status_code r = 400%Z \/ status_code r = 200%Z) /\
      (forall s, x_tradingview_signature request = Some s ->
                 s = "" \/ s = computed_signature env (get_data request))) \/
  (exists s,
      x_tradingview_signature request = Some s /\
      s <> "" /\ Str.isascii s = true /\
      s <> computed_signature env (get_data request) /\
      webhook env request
      = ([EvVerify (get_data request) s], Ok invalid_signature)) \/
  (exists s,
      x_tradingview_signature request = Some s /\
      Str.isascii s = false /\
      webhook env request
      = ([EvVerify (get_data request) s],
         Ok (server_error
               (Exn "TypeError"
                  "comparing strings with non-ASCII characters is not supported")))).
Proof.
  rewrite webhook_eq. cbv zeta.
  destruct (handled_shape env (get_data request)) as (t & r & Hh & Hst & _).
  destruct (x_tradingview_signature request) as [s|] eqn:Hsig.
  - destruct (s =? "") eqn:Hempty.
    { left. rewrite Hh. eexists; eexists. split; [reflexivity|].
      split; [exact Hst|]. intros s' Hs. injection Hs as <-.
      left. apply String.eqb_eq. exact Hempty. }
    apply String.eqb_neq in Hempty.
    destruct (Str.isascii s) eqn:Ha; cbn [negb].
    + destruct (computed_signature env (get_data request) =? s) eqn:Heq.
      * left. rewrite Hh. eexists; eexists. split; [reflexivity|].
        split; [exact Hst|]. intros s' Hs. injection Hs as <-.
        right. symmetry. apply String.eqb_eq. exact Heq.
      * right. left. exists s. apply String.eqb_neq in Heq.
        split; [reflexivity|]. split; [exact Hempty|]. split; [exact Ha|].
        split; [congruence|reflexivity].
    + right. right. exists s. split; [reflexivity|]. split; [exact Ha|reflexivity].
  - left. rewrite Hh. eexists; eexists. split; [reflexivity|].
    split; [exact Hst|]. intros s Hs. discriminate Hs.
Qed.

(** X2.  The handler always answers and never raises, and its status is
    200, 400, 401 or 500.  It answers 401 exactly to a signature of ASCII
    text that is not empty and not the computed one, and it answers 500
    to every signature that is not ASCII text; in both cases nothing but
    the check has happened and the body of the response is fixed. *)
Theorem webhook_status_table (env : Env) (request : Request) :
  exists response,
    result (webhook env request) = Ok response /\
    (status_code response = 200%Z \/ status_code response = 400%Z \/
     status_code response = 401%Z \/ status_code response = 500%Z) /\
    (status_code response = 401%Z <->
     exists s, x_tradingview_signature request = Some s /\
               s <> "" /\ Str.isascii s = true /\
               s <> computed_signature env (get_data request)) /\
    (status_code response = 401%Z ->
     json response = VDict [("error", VStr "Invalid signature")] /\
     exists s, x_tradingview_signature request = Some s /\
               trace (webhook env request) = [EvVerify (get_data request) s]) /\
    (forall s,
        x_tradingview_signature request = Some s ->
        Str.isascii s = false ->
        status_code response = 500%Z /\
        json response
        = VDict [("error",
                  VStr "comparing strings with non-ASCII characters is not supported")] /\
        trace (webhook env request) = [EvVerify (get_data request) s]).
Proof.
  destruct (webhook_three_ways env request)
    as [(t & r & Hw & Hst & Hsig)|[(s & Hs & Hne & Ha & Hwrong & Hw)
                                  |(s & Hs & Ha & Hw)]];
    rewrite Hw; eexists; (split; [reflexivity|]).
  - assert (H4 : status_code r <> 401%Z) by (destruct Hst as [-> | ->]; discriminate).
    split; [|split; [|split]].
    + destruct Hst as [-> | ->]; auto.
    + split; [intros H; contradiction|].
      intros (s & Hs & Hne & _ & Hwrong). destruct (Hsig s Hs); contradiction.
    + intros H; contradiction.
    + intros s Hs Ha. exfalso. destruct (Hsig s Hs) as [-> | ->].
      * discriminate Ha.
      * rewrite computed_signature_ascii in Ha. discriminate Ha.
  - cbn [status_code json invalid_signature].
    split; [|split; [|split]].
    + auto.
    + split; [intros _; exists s; auto|reflexivity].
    + intros _. split; [reflexivity|]. exists s. split; [exact Hs|reflexivity].
    + intros s' Hs' Ha'. rewrite Hs in Hs'. injection Hs' as <-. congruence.
  - cbn [status_code json server_error exn_str].
    split; [|split; [|split]].
    + auto.
    + split; [discriminate|].
      intros (s' & Hs' & _ & Ha' & _). rewrite Hs in Hs'. injection Hs' as <-.
      congruence.
    + discriminate.
    + intros s' Hs' _. rewrite Hs in Hs'. injection Hs' as <-.
      split; [reflexivity|]. split; reflexivity.
Qed.

Lemma webhook_status_table_witness :
  exists response,
    result (webhook (sample_env filled)
              {| get_data := btc_alert;
                 x_tradingview_signature := Some non_ascii_signature |})
    = Ok response /\
    status_code response = 500%Z.
Proof.
  destruct (webhook_status_table (sample_env filled)
              {| get_data := btc_alert;
                 x_tradingview_signature := Some non_ascii_signature |})
    as (response & Hres & _ & _ & _ & Hnon).
  exists response. split; [exact Hres|].
  exact (proj1 (Hnon non_ascii_signature eq_refl eq_refl)).
Defined.

(** X3.  What a request makes happen is, in this order: at most one
    check of the signature, then at most one call of the parser, then at
    most one call of [place_order] with one market order.  No request
    leads to more than one call of the exchange, and none is made before
    the body was parsed. *)
Theorem webhook_trace_shape (env : Env) (request : Request) :
  exists check rest,
    trace (webhook env request) = (check ++ rest)%list /\
    (check = [] \/
     exists s, x_tradingview_signature request = Some s /\
               check = [EvVerify (get_data request) s]) /\
    (rest = [] \/
     rest = [EvParse (VStr (get_data request))] \/
     exists s side q price,
       rest = [EvParse (VStr (get_data request));
               EvPlaceOrder (VStr s) side (VFloat q) "MARKET" price;
               EvOrderMarket (normalize_symbol env s) side (VFloat q)]) /\
    (List.length (filter is_exchange_call (trace (webhook env request))) <= 1)%nat.
Proof.
  assert (Hh : trace (handled env (get_data request))
               = [EvParse (VStr (get_data request))] \/
               exists s side q price,
                 trace (handled env (get_data request))
                 = [EvParse (VStr (get_data request));
                    EvPlaceOrder (VStr s) side (VFloat q) "MARKET" price;
                    EvOrderMarket (normalize_symbol env s) side (VFloat q)]).
  { unfold handled.
    destruct (alert_fields env (VStr (get_data request)))
      as [[[[[s signal] side] q] price]|]; [right|left; reflexivity].
    exists s, side, q, price. reflexivity. }
  assert (Hc : (List.length (filter is_exchange_call
                               (trace (handled env (get_data request)))) <= 1)%nat).
  { destruct Hh as [-> | (s & side & q & price & ->)]; cbn; lia. }
  rewrite webhook_eq. cbv zeta.
  destruct (x_tradingview_signature request) as [s|] eqn:Hsig.
  - destruct (s =? "").
    { exists [], (trace (handled env (get_data request))).
      split; [reflexivity|]. split; [auto|]. split; [|exact Hc].
      destruct Hh as [Hh|Hh]; auto. }
    destruct (negb (Str.isascii s)).
    { exists [EvVerify (get_data request) s], [].
      split; [reflexivity|]. split; [right; exists s; auto|].
      split; [auto|]. cbn. lia. }
    destruct (computed_signature env (get_data request) =? s).
    + exists [EvVerify (get_data request) s],
        (trace (handled env (get_data request))).
      split; [reflexivity|]. split; [right; exists s; auto|].
      split; [destruct Hh as [Hh|Hh]; auto|].
      cbn [trace fst filter is_exchange_call]. exact Hc.
    + exists [EvVerify (get_data request) s], [].
      split; [reflexivity|]. split; [right; exists s; auto|].
      split; [auto|]. cbn. lia.
  - exists [], (trace (handled env (get_data request))).
    split; [reflexivity|]. split; [auto|]. split; [|exact Hc].
    destruct Hh as [Hh|Hh]; auto.
Qed.

(** X4.  Whenever the handler answers 200 it has sent a market order,
    the exchange has answered with an object, and the response carries
    the order id and the status of that answer ([None] where the answer
    has none), with the symbol as it was sent, the side and the
    quantity.  An answer that is not an object gives 400 with the text
    of the [AttributeError]; an answer that is an object is never
    reported as 400 or 401. *)
Theorem webhook_relays_the_order (env : Env) (request : Request) :
  (forall response,
      result (webhook env request) = Ok response ->
      status_code response = 200%Z ->
      exists symbol side quantity d,
        In (EvOrderMarket symbol side quantity) (trace (webhook env request)) /\
        order_market (client env) symbol side quantity = Ok (VDict d) /\
        json response
        = VDict [("status", VStr "success");
                 ("message", VStr "Order placed successfully");
                 ("order",
                  VDict [("success", VBool true);
                         ("order_id", field d "orderId" VNone);
                         ("symbol", VStr symbol);
                         ("side", side);
                         ("quantity", quantity);
                         ("status", field d "status" VNone)])]) /\
  (forall symbol side quantity answer,
      In (EvOrderMarket symbol side quantity) (trace (webhook env request)) ->
      order_market (client env) symbol side quantity = Ok answer ->
      (forall d, answer <> VDict d) ->
      result (webhook env request)
      = Ok {| json :=
                VDict [("status", VStr "error");
                       ("message", VStr "Failed to place order");
                       ("error",
                        VStr ("'" ++ type_name answer
                              ++ "' object has no attribute 'get'"))];
              status_code := 400 |}) /\
  (forall symbol side quantity d,
      In (EvOrderMarket symbol side quantity) (trace (webhook env request)) ->
      order_market (client env) symbol side quantity = Ok (VDict d) ->
      exists response,
        result (webhook env request) = Ok response /\
        status_code response <> 400%Z /\
        status_code response <> 401%Z).
Proof.
  split; [|split].
  - intros response Hres Hstatus.
    destruct (webhook_rejected_or_passes env request)
      as [Hpass|(s & r & Hw & Hst)].
    + destruct (webhook_passes env request Hpass)
        as (Hr & before & Htrace & _).
      rewrite Hr in Hres. rewrite Htrace. unfold handled in *.
      destruct (alert_fields env (VStr (get_data request)))
        as [[[[[s signal] side] q] price]|].
      * exists (normalize_symbol env s), side, (VFloat q).
        cbn [result snd] in Hres. injection Hres as <-.
        destruct (order_market (client env) (normalize_symbol env s) side
                    (VFloat q)) as [[| | | | | |d]|e]; try discriminate.
        exists d. split; [|split; reflexivity].
        apply in_or_app. right. cbn. auto.
      * cbn in Hres. injection Hres as <-. discriminate.
    + rewrite Hw in Hres. cbn in Hres. injection Hres as <-.
      destruct Hst as [Hst|Hst]; rewrite Hst in Hstatus; discriminate.
  - intros symbol side quantity answer Hin Hanswer Hnot.
    rewrite (webhook_order_event env request _ _ _ Hin), Hanswer.
    destruct answer; try reflexivity. exfalso. exact (Hnot _ eq_refl).
  - intros symbol side quantity d Hin Hanswer.
    rewrite (webhook_order_event env request _ _ _ Hin), Hanswer.
    eexists. split; [reflexivity|]. split; discriminate.
Qed.

Lemma webhook_relays_the_order_witness :
  (exists symbol side quantity d,
      In (EvOrderMarket symbol side quantity)
        (trace (webhook (sample_env filled)
                  {| get_data := btc_alert; x_tradingview_signature := None |})) /\
      order_market (client (sample_env filled)) symbol side quantity
      = Ok (VDict d) /\
      VDict [("status", VStr "success");
             ("message", VStr "Order placed successfully");
             ("order",
              VDict [("success", VBool true);
                     ("order_id", VInt 28);
                     ("symbol", VStr "BTCUSDT");
                     ("side", VStr "BUY");
                     ("quantity", VFloat 0.01);
                     ("status", VStr "FILLED")])]
      = VDict [("status", VStr "success");
               ("message", VStr "Order placed successfully");
               ("order",
                VDict [("success", VBool true);
                       ("order_id", field d "orderId" VNone);
                       ("symbol", VStr symbol);
                       ("side", side);
                       ("quantity", quantity);
                       ("status", field d "status" VNone)])]) /\
  result (webhook (sample_env (Ok (VList [])))
            {| get_data := btc_alert; x_tradingview_signature := None |})
  = Ok {| json :=
            VDict [("status", VStr "error");
                   ("message", VStr "Failed to place order");
                   ("error", VStr "'list' object has no attribute 'get'")];
          status_code := 400 |} /\
  (exists response,
      result (webhook (sample_env filled)
                {| get_data := btc_alert; x_tradingview_signature := None |})
      = Ok response /\
      status_code response <> 400%Z /\
      status_code response <> 401%Z).
Proof.
  split; [|split].
  - refine (proj1 (webhook_relays_the_order (sample_env filled)
                     {| get_data := btc_alert; x_tradingview_signature := None |})
              {| json :=
                   VDict [("status", VStr "success");
                          ("message", VStr "Order placed successfully");
                          ("order",
                           VDict [("success", VBool true);
                                  ("order_id", VInt 28);
                                  ("symbol", VStr "BTCUSDT");
                                  ("side", VStr "BUY");
                                  ("quantity", VFloat 0.01);
                                  ("status", VStr "FILLED")])];
                 status_code := 200 |} _ _).
    + vm_compute. reflexivity.
    + reflexivity.
  - refine (proj1 (proj2 (webhook_relays_the_order (sample_env (Ok (VList [])))
                     {| get_data := btc_alert; x_tradingview_signature := None |}))
              "BTCUSDT" (VStr "BUY") (VFloat 0.01) (VList []) _ _ _).
    + vm_compute. right. right. left. reflexivity.
    + reflexivity.
    + intros d H. discriminate H.
  - refine (proj2 (proj2 (webhook_relays_the_order (sample_env filled)
                     {| get_data := btc_alert; x_tradingview_signature := None |}))
              "BTCUSDT" (VStr "BUY") (VFloat 0.01)
              [("orderId", VInt 28); ("status", VStr "FILLED")] _ _).
    + vm_compute. right. right. left. reflexivity.
    + reflexivity.
Defined.

(** ** The parser *)

Lemma checks_are_no_exchange_calls (before : list event) :
  forallb is_verify before = true -> filter is_exchange_call before = [].
Proof.
  induction before as [|ev before IH]; [reflexivity|].
  cbn [forallb]. intros Hb. apply andb_prop in Hb. destruct Hb as [Hev Hb].
  destruct ev; try discriminate. cbn. exact (IH Hb).
Qed.

(** X5.  A payload that is JSON but not an object (a list, a number, a
    text, [null]), and an object whose symbol is not a text, make the
    parser return [None]; a request with such a body that passes the
    signature check is answered 400 and no order is sent. *)
Theorem non_object_payload_is_rejected (env : Env) (data : value) :
  ((exists v, decoded data = Ok v /\ forall d, v <> VDict d) \/
   (exists d v, decoded data = Ok (VDict d) /\
                dict_lookup d "symbol" = Some v /\ forall s, v <> VStr s)) ->
  parse_tradingview_alert env data = ([EvParse data], Ok VNone) /\
  (forall request,
      data = VStr (get_data request) ->
      passes_check env request = true ->
      result (webhook env request)
      = Ok {| json := VDict [("error", VStr "Invalid alert data")];
              status_code := 400 |} /\
      filter is_exchange_call (trace (webhook env request)) = []).
Proof.
  intros Hbad.
  assert (Hnone : alert_fields env data = None).
  { unfold alert_fields.
    destruct Hbad as [(v & Hv & Hnot)|(d & v & Hd & Hs & Hnot)].
    - rewrite Hv. destruct v; try reflexivity. exfalso. exact (Hnot _ eq_refl).
    - rewrite Hd. unfold field at 1. rewrite Hs.
      destruct v; try reflexivity. exfalso. exact (Hnot _ eq_refl). }
  split.
  - rewrite parse_tradingview_alert_eq. unfold alert_of. rewrite Hnone.
    reflexivity.
  - intros request -> Hpass.
    destruct (webhook_passes env request Hpass) as (Hr & before & Htrace & Hb).
    rewrite Hr, Htrace. unfold handled. rewrite Hnone. split; [reflexivity|].
    rewrite filter_app, (checks_are_no_exchange_calls before Hb). reflexivity.
Qed.

Lemma non_object_payload_is_rejected_witness :
  parse_tradingview_alert (sample_env filled) (VStr "[1, 2]")
  = ([EvParse (VStr "[1, 2]")], Ok VNone) /\
  parse_tradingview_alert (sample_env filled) (VStr (dq "{'symbol': 7}"))
  = ([EvParse (VStr (dq "{'symbol': 7}"))], Ok VNone) /\
  result (webhook (sample_env filled)
            {| get_data := "[1, 2]"; x_tradingview_signature := None |})
  = Ok {| json := VDict [("error", VStr "Invalid alert data")];
          status_code := 400 |}.
Proof.
  split; [|split].
  - refine (proj1 (non_object_payload_is_rejected (sample_env filled)
                     (VStr "[1, 2]") _)).
    left. exists (VList [VInt 1; VInt 2]).
    split; [vm_compute; reflexivity|]. intros d H. discriminate H.
  - refine (proj1 (non_object_payload_is_rejected (sample_env filled)
                     (VStr (dq "{'symbol': 7}")) _)).
    right. exists [("symbol", VInt 7)], (VInt 7).
    split; [vm_compute; reflexivity|]. split; [reflexivity|].
    intros s H. discriminate H.
  - refine (proj1 (proj2 (non_object_payload_is_rejected (sample_env filled)
                            (VStr "[1, 2]") _)
                     {| get_data := "[1, 2]"; x_tradingview_signature := None |}
                     eq_refl eq_refl)).
    left. exists (VList [VInt 1; VInt 2]).
    split; [vm_compute; reflexivity|]. intros d H. discriminate H.
Defined.

(** X6.  The parser reads a text and the value the text decodes to in
    the same way: it returns the same alert, or [None], for both.  The
    one exception is a text that decodes to a text: that one is not
    decoded a second time, and the parser returns [None] for it. *)
Theorem parser_reads_text_and_mapping_alike (env : Env) (s : string) :
  (forall v,
      json_loads s = Ok v ->
      (forall t, v <> VStr t) ->
      result (parse_tradingview_alert env (VStr s))
      = result (parse_tradingview_alert env v)) /\
  (forall t,
      json_loads s = Ok (VStr t) ->
      parse_tradingview_alert env (VStr s) = ([EvParse (VStr s)], Ok VNone)).
Proof.
  split.
  - intros v Hv Hnot.
    rewrite !parse_tradingview_alert_eq. unfold result, snd, alert_of, alert_fields.
    assert (Hd : decoded (VStr s) = decoded v).
    { unfold decoded at 1. rewrite Hv.
      destruct v; try reflexivity. exfalso. exact (Hnot _ eq_refl). }
    rewrite Hd. reflexivity.
  - intros t Ht. rewrite parse_tradingview_alert_eq.
    unfold alert_of, alert_fields, decoded. rewrite Ht. reflexivity.
Qed.

Lemma parser_reads_text_and_mapping_alike_witness :
  result (parse_tradingview_alert (sample_env filled) (VStr eth_alert))
  = result (parse_tradingview_alert (sample_env filled)
              (VDict [("symbol", VStr "BINANCE:ETHUSDT"); ("side", VStr "SELL");
                      ("quantity", VFloat 0.5)])) /\
  parse_tradingview_alert (sample_env filled) (VStr (dq "'{}'"))
  = ([EvParse (VStr (dq "'{}'"))], Ok VNone).
Proof.
  split.
  - refine (proj1 (parser_reads_text_and_mapping_alike (sample_env filled) eth_alert)
              _ _ _).
    + vm_compute. reflexivity.
    + intros t H. discriminate H.
  - refine (proj2 (parser_reads_text_and_mapping_alike (sample_env filled)
                     (dq "'{}'")) "{}" _).
    vm_compute. reflexivity.
Defined.

(** ** From the payload to the exchange *)

(** What a request that passes the check sends to the exchange, read off
    the object its body decodes to. *)
Lemma exchange_call_of_payload (env : Env) (request : Request) (d : dict)
  (s : string) (q : float) :
  passes_check env request = true ->
  json_loads (get_data request) = Ok (VDict d) ->
  field d "symbol" (VStr "") = VStr s ->
  py_float (unicode_float env) (field d "quantity" (VFloat 0.001)) = Ok q ->
  filter is_exchange_call (trace (webhook env request))
  = [EvOrderMarket (normalize_symbol env (Str.replace s "BINANCE:" ""))
       (field d "side" (VStr "BUY")) (VFloat q)] /\
  result (webhook env request)
  = Ok (response_of
          (order_market (client env)
             (normalize_symbol env (Str.replace s "BINANCE:" ""))
             (field d "side" (VStr "BUY")) (VFloat q))
          (normalize_symbol env (Str.replace s "BINANCE:" ""))
          (field d "side" (VStr "BUY")) (VFloat q)).
Proof.
  intros Hpass Hd Hs Hq.
  destruct (webhook_passes env request Hpass) as (Hr & before & Htrace & Hb).
  rewrite Hr, Htrace, filter_app, (checks_are_no_exchange_calls before Hb).
  unfold handled, alert_fields, decoded. rewrite Hd, Hs, Hq.
  split; reflexivity.
Qed.

(** X7.  Nothing in the payload is validated on the way to the exchange.
    For a request that passes the signature check and whose body is an
    object with a text for symbol and a quantity that [float] takes, the
    one call of the exchange is a market order for the normalized symbol
    with the side exactly as the payload has it (BUY when it has none)
    and the quantity as a float, whatever they are: a side that is not
    BUY or SELL, a quantity that is zero, negative or not a number. *)
Theorem payload_reaches_exchange_unvalidated (env : Env) (request : Request)
  (d : dict) (s : string) (q : float) :
  passes_check env request = true ->
  json_loads (get_data request) = Ok (VDict d) ->
  field d "symbol" (VStr "") = VStr s ->
  py_float (unicode_float env) (field d "quantity" (VFloat 0.001)) = Ok q ->
  filter is_exchange_call (trace (webhook env request))
  = [EvOrderMarket (normalize_symbol env (Str.replace s "BINANCE:" ""))
       (field d "side" (VStr "BUY")) (VFloat q)].
Proof.
  intros Hpass Hd Hs Hq.
  exact (proj1 (exchange_call_of_payload env request d s q Hpass Hd Hs Hq)).
Qed.

Lemma payload_reaches_exchange_unvalidated_witness :
  filter is_exchange_call
    (trace (webhook (sample_env filled)
              {| get_data := dq "{'symbol':'BINANCE:btc','side':'hold','quantity':'-3'}";
                 x_tradingview_signature := None |}))
  = [EvOrderMarket
       (normalize_symbol (sample_env filled) (Str.replace "BINANCE:btc" "BINANCE:" ""))
       (field [("symbol", VStr "BINANCE:btc"); ("side", VStr "hold");
               ("quantity", VStr "-3")] "side" (VStr "BUY"))
       (VFloat (-3))].
Proof.
  refine (payload_reaches_exchange_unvalidated (sample_env filled)
            {| get_data := dq "{'symbol':'BINANCE:btc','side':'hold','quantity':'-3'}";
               x_tradingview_signature := None |}
            [("symbol", VStr "BINANCE:btc"); ("side", VStr "hold");
             ("quantity", VStr "-3")]
            "BINANCE:btc" (-3)%float _ _ _ _).
  - reflexivity.
  - vm_compute. reflexivity.
  - reflexivity.
  - vm_compute. reflexivity.
Defined.

(** X8.  Of the payload only the symbol, the side and the quantity count.
    Two requests that pass the signature check and whose bodies are
    objects with the same three fields send the same order and get the
    same response, whatever their signal, their price and their other
    fields are. *)
Theorem only_symbol_side_quantity_count (env : Env) (request request' : Request)
  (d d' : dict) :
  passes_check env request = true ->
  passes_check env request' = true ->
  json_loads (get_data request) = Ok (VDict d) ->
  json_loads (get_data request') = Ok (VDict d') ->
  dict_lookup d "symbol" = dict_lookup d' "symbol" ->
  dict_lookup d "side" = dict_lookup d' "side" ->
  dict_lookup d "quantity" = dict_lookup d' "quantity" ->
  result (webhook env request) = result (webhook env request') /\
  filter is_exchange_call (trace (webhook env request))
  = filter is_exchange_call (trace (webhook env request')).
Proof.
  intros Hpass Hpass' Hd Hd' Hsymbol Hside Hquantity.
  destruct (webhook_passes env request Hpass) as (Hr & before & Htrace & Hb).
  destruct (webhook_passes env request' Hpass')
    as (Hr' & before' & Htrace' & Hb').
  rewrite Hr, Hr', Htrace, Htrace', !filter_app.
  rewrite (checks_are_no_exchange_calls before Hb).
  rewrite (checks_are_no_exchange_calls before' Hb').
  unfold handled, alert_fields, decoded. rewrite Hd, Hd'.
  unfold field. rewrite Hsymbol, Hside, Hquantity.
  destruct (dict_lookup d' "symbol") as [[| | | |s| |]|]; try (split; reflexivity);
    destruct (py_float (unicode_float env)
                match dict_lookup d' "quantity" with
                | Some v => v
                | None => VFloat 0.001
                end) as [q|e]; split; reflexivity.
Qed.

Lemma only_symbol_side_quantity_count_witness :
  result (webhook (sample_env filled)
            {| get_data := dq "{'symbol':'BTC','signal':'SELL'}";
               x_tradingview_signature := None |})
  = result (webhook (sample_env filled)
              {| get_data := dq "{'price':65000,'symbol':'BTC','note':[1]}";
                 x_tradingview_signature := Some "" |}).
Proof.
  refine (proj1 (only_symbol_side_quantity_count (sample_env filled)
                   {| get_data := dq "{'symbol':'BTC','signal':'SELL'}";
                      x_tradingview_signature := None |}
                   {| get_data := dq "{'price':65000,'symbol':'BTC','note':[1]}";
                      x_tradingview_signature := Some "" |}
                   [("symbol", VStr "BTC"); ("signal", VStr "SELL")]
                   [("price", VInt 65000); ("symbol", VStr "BTC");
                    ("note", VList [VInt 1])]
                   _ _ _ _ _ _ _)).
  - reflexivity.
  - reflexivity.
  - vm_compute. reflexivity.
  - vm_compute. reflexivity.
  - reflexivity.
  - reflexivity.
  - reflexivity.
Defined.

(** X9.  A payload without a symbol, or with an empty one, is not turned
    down: a request that passes the signature check and has such a body
    sends a market order for the symbol [USDT]. *)
Theorem missing_symbol_orders_usdt (env : Env) (request : Request)
  (d : dict) (q : float) :
  passes_check env request = true ->
  json_loads (get_data request) = Ok (VDict d) ->
  dict_lookup d "symbol" = None \/ dict_lookup d "symbol" = Some (VStr "") ->
  py_float (unicode_float env) (field d "quantity" (VFloat 0.001)) = Ok q ->
  filter is_exchange_call (trace (webhook env request))
  = [EvOrderMarket "USDT" (field d "side" (VStr "BUY")) (VFloat q)].
Proof.
  intros Hpass Hd Hsymbol Hq.
  assert (Hs : field d "symbol" (VStr "") = VStr "").
  { unfold field. destruct Hsymbol as [-> | ->]; reflexivity. }
  rewrite (proj1 (exchange_call_of_payload env request d "" q Hpass Hd Hs Hq)).
  reflexivity.
Qed.

Lemma missing_symbol_orders_usdt_witness :
  filter is_exchange_call
    (trace (webhook (sample_env filled)
              {| get_data := "{}"; x_tradingview_signature := None |}))
  = [EvOrderMarket "USDT" (field [] "side" (VStr "BUY")) (VFloat 0.001)].
Proof.
  refine (missing_symbol_orders_usdt (sample_env filled)
            {| get_data := "{}"; x_tradingview_signature := None |}
            [] 0.001%float _ _ _ _).
  - reflexivity.
  - vm_compute. reflexivity.
  - left. reflexivity.
  - vm_compute. reflexivity.
Defined.

(** ** The order submitter *)

Lemma place_order_bad_symbol (env : Env) (symbol side quantity price : value)
  (order_type : string) :
  (forall s, symbol <> VStr s) ->
  place_order env symbol side quantity order_type price
  = ([EvPlaceOrder symbol side quantity order_type price],
     Ok (order_failure (AttributeError symbol "endswith"))).
Proof.
  intros Hnot. unfold place_order. rewrite bind_emit.
  destruct symbol; try reflexivity. exfalso. exact (Hnot _ eq_refl).
Qed.

(** X10.  [place_order] always returns a result and never raises,
    whatever it is given.  It calls the exchange at most once.  Its
    result says [success] true only after a call of the exchange, and
    otherwise says [success] false and carries an error text. *)
Theorem place_order_always_returns (env : Env) (symbol side quantity : value)
  (order_type : string) (price : value) :
  exists calls r,
    place_order env symbol side quantity order_type price
    = (EvPlaceOrder symbol side quantity order_type price :: calls,
       Ok (VDict r)) /\
    (List.length calls <= 1)%nat /\
    forallb is_exchange_call calls = true /\
    ((dict_lookup r "success" = Some (VBool true) /\ List.length calls = 1%nat) \/
     (dict_lookup r "success" = Some (VBool false) /\
      exists msg, dict_lookup r "error" = Some (VStr msg))).
Proof.
  assert (Hshape : forall answer sym,
             exists r, order_result_of answer sym side quantity = VDict r /\
                       (dict_lookup r "success" = Some (VBool true) \/
                        (dict_lookup r "success" = Some (VBool false) /\
                         exists msg, dict_lookup r "error" = Some (VStr msg)))).
  { intros [[| | | | | |d]|e] sym; eexists; (split; [reflexivity|]);
      try (left; reflexivity); right; split; try reflexivity;
      eexists; reflexivity. }
  destruct symbol as [| | | |s| |];
    try (rewrite place_order_bad_symbol by (intros s H; discriminate H);
         exists []; eexists; split; [reflexivity|];
         split; [cbn; lia|]; split; [reflexivity|]; right;
         split; [reflexivity|]; eexists; reflexivity).
  destruct (order_type =? "MARKET") eqn:Hm.
  - apply String.eqb_eq in Hm. subst order_type. rewrite place_order_market.
    destruct (Hshape (order_market (client env) (normalize_symbol env s) side
                        quantity) (normalize_symbol env s)) as (r & -> & Hr).
    exists [EvOrderMarket (normalize_symbol env s) side quantity], r.
    split; [reflexivity|]. split; [cbn; lia|]. split; [reflexivity|].
    destruct Hr as [Hr|Hr]; [left; split; [exact Hr|reflexivity]|right; exact Hr].
  - destruct ((order_type =? "LIMIT") && truthy price) eqn:Hl.
    + apply andb_prop in Hl. destruct Hl as [Hl Hp].
      apply String.eqb_eq in Hl. subst order_type.
      rewrite (place_order_limit env s side quantity price Hp).
      destruct (Hshape (order_limit (client env) (normalize_symbol env s) side
                          "GTC" quantity price) (normalize_symbol env s))
        as (r & -> & Hr).
      exists [EvOrderLimit (normalize_symbol env s) side "GTC" quantity price], r.
      split; [reflexivity|]. split; [cbn; lia|]. split; [reflexivity|].
      destruct Hr as [Hr|Hr]; [left; split; [exact Hr|reflexivity]|right; exact Hr].
    + rewrite (place_order_invalid env s side quantity price order_type Hm Hl).
      exists []. eexists. split; [reflexivity|].
      split; [cbn; lia|]. split; [reflexivity|]. right.
      split; [reflexivity|]. eexists. reflexivity.
Qed.

(** X11.  An order type other than MARKET and LIMIT, written exactly so,
    and a limit order whose price counts as false (no price, zero, an
    empty text) are refused without any call of the exchange; the result
    is the failure with the text [Invalid order type:] and the type. *)
Theorem place_order_refuses_other_types (env : Env) (s : string)
  (side quantity : value) (order_type : string) (price : value) :
  order_type <> "MARKET" ->
  order_type <> "LIMIT" \/ truthy price = false ->
  place_order env (VStr s) side quantity order_type price
  = ([EvPlaceOrder (VStr s) side quantity order_type price],
     Ok (VDict [("success", VBool false);
                ("error", VStr ("Invalid order type: " ++ order_type))])).
Proof.
  intros Hm Hl. apply place_order_invalid.
  - apply String.eqb_neq. exact Hm.
  - destruct Hl as [Hl|Hl].
    + apply String.eqb_neq in Hl. rewrite Hl. reflexivity.
    + rewrite Hl. apply andb_false_r.
Qed.

Lemma place_order_refuses_other_types_witness :
  place_order (sample_env filled) (VStr "BTC") (VStr "BUY") (VFloat 1) "market"
    (VFloat 65000)
  = ([EvPlaceOrder (VStr "BTC") (VStr "BUY") (VFloat 1) "market" (VFloat 65000)],
     Ok (VDict [("success", VBool false);
                ("error", VStr ("Invalid order type: " ++ "market"))])) /\
  place_order (sample_env filled) (VStr "BTC") (VStr "BUY") (VFloat 1) "LIMIT"
    (VFloat 0)
  = ([EvPlaceOrder (VStr "BTC") (VStr "BUY") (VFloat 1) "LIMIT" (VFloat 0)],
     Ok (VDict [("success", VBool false);
                ("error", VStr ("Invalid order type: " ++ "LIMIT"))])).
Proof.
  split.
  - refine (place_order_refuses_other_types (sample_env filled) "BTC" (VStr "BUY")
              (VFloat 1) "market" (VFloat 65000) _ _).
    + intros H. discriminate H.
    + left. intros H. discriminate H.
  - refine (place_order_refuses_other_types (sample_env filled) "BTC" (VStr "BUY")
              (VFloat 1) "LIMIT" (VFloat 0) _ _).
    + intros H. discriminate H.
    + right. reflexivity.
Defined.

(** ** The symbol *)

Lemma eqb_length (a b : string) :
  (a =? b) = true -> String.length a = String.length b.
Proof. intros H. apply String.eqb_eq in H. congruence. Qed.

Lemma endswith_unfold (s suffix : string) :
  Str.endswith s suffix
  = (s =? suffix) ||
    match s with
    | EmptyString => false
    | String _ r => Str.endswith r suffix
    end.
Proof. destruct s; reflexivity. Qed.

Lemma endswith_short (s suffix : string) :
  (String.length s < String.length suffix)%nat -> Str.endswith s suffix = false.
Proof.
  induction s as [|c s IH]; intros Hl; rewrite endswith_unfold.
  - destruct ("" =? suffix) eqn:He; [|reflexivity].
    apply eqb_length in He. simpl in *. lia.
  - destruct (String c s =? suffix) eqn:He.
    + apply eqb_length in He. lia.
    + apply IH. simpl in Hl. lia.
Qed.

(** Whether a text ends with a suffix is decided by its last characters. *)
Lemma endswith_tail (x t suffix : string) :
  String.length t = String.length suffix ->
  Str.endswith (x ++ t) suffix = (t =? suffix).
Proof.
  intros Hl. induction x as [|c x IH].
  - change ("" ++ t) with t. rewrite endswith_unfold.
    destruct t as [|c t].
    + apply orb_false_r.
    + rewrite endswith_short by (simpl in Hl; lia). apply orb_false_r.
  - change (String c x ++ t) with (String c (x ++ t)).
    rewrite endswith_unfold, IH.
    destruct (String c (x ++ t) =? suffix) eqn:He; [|reflexivity].
    apply eqb_length in He. simpl in He. rewrite length_app_string in He. lia.
Qed.

Lemma map_chars_app (f : ascii -> ascii) (a b : string) :
  Str.map_chars f (a ++ b) = Str.map_chars f a ++ Str.map_chars f b.
Proof.
  induction a as [|c a IH]; [reflexivity|].
  change (String c a ++ b) with (String c (a ++ b)).
  cbn [Str.map_chars]. rewrite IH. reflexivity.
Qed.

Lemma append_assoc (a b c : string) : (a ++ b) ++ c = a ++ (b ++ c).
Proof.
  induction a as [|x a IH]; [reflexivity|].
  change (String x a ++ b) with (String x (a ++ b)).
  change (String x (a ++ b) ++ c) with (String x ((a ++ b) ++ c)).
  rewrite IH. reflexivity.
Qed.

(** X12.  Whatever the symbol, the symbol that [place_order] sends ends
    with [USDT].  The test for the suffix is exact: a symbol that ends
    with [USDT] in capitals is sent as it is, small letters before the
    suffix included, while a symbol of ASCII text that ends with [usdt]
    in small letters is put in capitals and gets the suffix a second
    time. *)
Theorem sent_symbol_ends_with_usdt (env : Env) (s : string) :
  Str.endswith (normalize_symbol env s) "USDT" = true /\
  (forall x, s = x ++ "USDT" -> normalize_symbol env s = s) /\
  (forall x,
      s = x ++ "usdt" ->
      Str.isascii x = true ->
      normalize_symbol env s = Str.map_chars Str.upper_char x ++ "USDTUSDT").
Proof.
  split; [|split].
  - rewrite normalize_symbol_eq. destruct (Str.endswith s "USDT") eqn:He.
    + exact He.
    + apply endswith_app.
  - intros x ->. rewrite normalize_symbol_eq, endswith_app. reflexivity.
  - intros x -> Ha. rewrite normalize_symbol_eq.
    rewrite (endswith_tail x "usdt" "USDT" eq_refl).
    change ("usdt" =? "USDT") with false. cbv iota.
    unfold Str.upper. rewrite isascii_app, Ha.
    change (Str.isascii "usdt") with true. cbn [andb].
    rewrite map_chars_app, append_assoc. reflexivity.
Qed.

Lemma sent_symbol_ends_with_usdt_witness :
  normalize_symbol (sample_env filled) ("eth" ++ "USDT") = "eth" ++ "USDT" /\
  normalize_symbol (sample_env filled) ("btc" ++ "usdt")
  = Str.map_chars Str.upper_char "btc" ++ "USDTUSDT".
Proof.
  split.
  - refine (proj1 (proj2 (sent_symbol_ends_with_usdt (sample_env filled)
                            ("eth" ++ "USDT"))) "eth" _).
    reflexivity.
  - refine (proj2 (proj2 (sent_symbol_ends_with_usdt (sample_env filled)
                            ("btc" ++ "usdt"))) "btc" _ _).
    + reflexivity.
    + reflexivity.
Defined.

(** ** The configuration *)

Lemma lower_char_t (a : ascii) :
  Ascii.eqb (Float.lower_char a) "t" = is_letter "t" "T" a.
Proof. destruct a as [[] [] [] [] [] [] [] []]; reflexivity. Qed.

Lemma lower_char_r (a : ascii) :
  Ascii.eqb (Float.lower_char a) "r" = is_letter "r" "R" a.
Proof. destruct a as [[] [] [] [] [] [] [] []]; reflexivity. Qed.

Lemma lower_char_u (a : ascii) :
  Ascii.eqb (Float.lower_char a) "u" = is_letter "u" "U" a.
Proof. destruct a as [[] [] [] [] [] [] [] []]; reflexivity. Qed.

Lemma lower_char_e (a : ascii) :
  Ascii.eqb (Float.lower_char a) "e" = is_letter "e" "E" a.
Proof. destruct a as [[] [] [] [] [] [] [] []]; reflexivity. Qed.

Lemma eqb_cons (a b : ascii) (s t : string) :
  (String a s =? String b t) = Ascii.eqb a b && (s =? t).
Proof. reflexivity. Qed.

Lemma lowered_is_true (s : string) :
  (Str.map_chars Float.lower_char s =? "true") = spells_true s.
Proof.
  destruct s as [|a [|b [|c [|d [|e s]]]]]; cbn [Str.map_chars spells_true];
    rewrite ?eqb_cons, ?lower_char_t, ?lower_char_r, ?lower_char_u,
      ?lower_char_e;
    try reflexivity;
    repeat (destruct (is_letter _ _ _); try reflexivity).
Qed.

(** X13.  The service runs against the test network when the variable
    [TESTNET_MODE] is not set, and when it is set to ASCII text only if
    that text is the word [true] in small or capital letters; every other
    value (1, yes, on, the empty text, [true] with a space) selects live
    trading.  The exchange client, the health endpoint and the index
    endpoint all follow that one flag, and both endpoints answer 200. *)
Theorem testnet_mode_is_spelled_true (unicode_lower : string -> string)
  (environ : string -> option string) :
  (environ "TESTNET_MODE" = None -> TESTNET_MODE unicode_lower environ = true) /\
  (forall s,
      environ "TESTNET_MODE" = Some s ->
      Str.isascii s = true ->
      TESTNET_MODE unicode_lower environ = spells_true s) /\
  testnet (client_args unicode_lower environ) = TESTNET_MODE unicode_lower environ /\
  (py_get (json (health_check (TESTNET_MODE unicode_lower environ))) "mode" VNone
   = Ok (VStr "testnet")
   <-> TESTNET_MODE unicode_lower environ = true) /\
  (py_get (json (health_check (TESTNET_MODE unicode_lower environ))) "mode" VNone
   = Ok (VStr "live")
   <-> TESTNET_MODE unicode_lower environ = false) /\
  py_get (json (index (TESTNET_MODE unicode_lower environ))) "testnet" VNone
  = Ok (VBool (TESTNET_MODE unicode_lower environ)) /\
  status_code (health_check (TESTNET_MODE unicode_lower environ)) = 200%Z /\
  status_code (index (TESTNET_MODE unicode_lower environ)) = 200%Z.
Proof.
  split; [|split; [|split; [|split; [|split; [|split; [|split]]]]]].
  - intros Hnone. unfold TESTNET_MODE, getenv. rewrite Hnone. reflexivity.
  - intros s Hs Ha. unfold TESTNET_MODE, getenv, str_lower. rewrite Hs, Ha.
    apply lowered_is_true.
  - unfold client_args. destruct (TESTNET_MODE unicode_lower environ); reflexivity.
  - destruct (TESTNET_MODE unicode_lower environ); cbn; split; intros H;
      try reflexivity; discriminate.
  - destruct (TESTNET_MODE unicode_lower environ); cbn; split; intros H;
      try reflexivity; discriminate.
  - reflexivity.
  - reflexivity.
  - reflexivity.
Qed.

Lemma testnet_mode_is_spelled_true_witness :
  TESTNET_MODE (fun s => s) (fun _ => None) = true /\
  TESTNET_MODE (fun s => s)
    (fun name => if name =? "TESTNET_MODE" then Some "1" else None)
  = spells_true "1".
Proof.
  split.
  - refine (proj1 (testnet_mode_is_spelled_true (fun s => s) (fun _ => None)) _).
    reflexivity.
  - refine (proj1 (proj2 (testnet_mode_is_spelled_true (fun s => s)
              (fun name => if name =? "TESTNET_MODE" then Some "1" else None)))
              "1" _ _).
    + reflexivity.
    + reflexivity.
Defined.

(** X14.  The shared secret is the value of [WEBHOOK_SECRET] as it is,
    an empty value included, and the text [your-webhook-secret] when the
    variable is not set: a service started without it takes as valid the
    signature made with that text as key. *)
Theorem unset_secret_is_the_default (environ : string -> option string)
  (c : Client) (now : string) (unicode_upper : string -> string)
  (unicode_float : string -> option float) (body : string) :
  (forall key,
      environ "WEBHOOK_SECRET" = Some key ->
      computed_signature (configured environ c now unicode_upper unicode_float) body
      = Sha256.hmac_hexdigest (encode key) (encode body)) /\
  (environ "WEBHOOK_SECRET" = None ->
   passes_check (configured environ c now unicode_upper unicode_float)
     {| get_data := body;
        x_tradingview_signature :=
          Some (Sha256.hmac_hexdigest (encode "your-webhook-secret")
                  (encode body)) |}
   = true /\
   result (webhook (configured environ c now unicode_upper unicode_float)
             {| get_data := body;
                x_tradingview_signature :=
                  Some (Sha256.hmac_hexdigest (encode "your-webhook-secret")
                          (encode body)) |})
   = result (webhook (configured environ c now unicode_upper unicode_float)
               {| get_data := body; x_tradingview_signature := None |})).
Proof.
  split.
  - intros key Hkey. unfold computed_signature, configured, configured_secret,
      getenv. cbn [WEBHOOK_SECRET]. rewrite Hkey. reflexivity.
  - intros Hnone.
    assert (Hsig : Sha256.hmac_hexdigest (encode "your-webhook-secret") (encode body)
                   = computed_signature
                       (configured environ c now unicode_upper unicode_float) body).
    { unfold computed_signature, configured, configured_secret, getenv.
      cbn [WEBHOOK_SECRET]. rewrite Hnone. reflexivity. }
    rewrite Hsig. split.
    + unfold passes_check. cbn [x_tradingview_signature get_data].
      rewrite String.eqb_refl. apply orb_true_r.
    + rewrite webhook_signed. reflexivity.
Qed.

Lemma unset_secret_is_the_default_witness :
  computed_signature
    (configured (fun name => if name =? "WEBHOOK_SECRET" then Some "" else None)
       (answering filled) "2024-05-01T12:00:00" (fun s => s) (fun _ => None))
    btc_alert
  = Sha256.hmac_hexdigest (encode "") (encode btc_alert) /\
  passes_check
    (configured (fun _ => None) (answering filled) "2024-05-01T12:00:00"
       (fun s => s) (fun _ => None))
    {| get_data := btc_alert;
       x_tradingview_signature :=
         Some (Sha256.hmac_hexdigest (encode "your-webhook-secret")
                 (encode btc_alert)) |}
  = true.
Proof.
  split.
  - refine (proj1 (unset_secret_is_the_default
              (fun name => if name =? "WEBHOOK_SECRET" then Some "" else None)
              (answering filled) "2024-05-01T12:00:00" (fun s => s)
              (fun _ => None) btc_alert) "" _).
    reflexivity.
  - refine (proj1 (proj2 (unset_secret_is_the_default (fun _ => None)
              (answering filled) "2024-05-01T12:00:00" (fun s => s)
              (fun _ => None) btc_alert) _)).
    reflexivity.
Defined.
